(** * Churn feature engineering notebook (01_feature_engineering.py)

    A shallow embedding of the notebook's transformations:
    [compute_service_features], [clean_churn_features], the label/split
    cell, the constraint and pre-drop cells, and the on-demand function
    [avg_price_increase]: its Python body and its declared FLOAT result.

    Data frames are columnar: a frame is the list of its columns, each a
    named, typed series of cells.  Python and Spark doubles are IEEE
    binary64 values, embedded as Rocq's primitive floats.  Failing calls
    return in an error monad carrying the Python exception; notebook cells
    that touch the catalog thread a workspace state. *)

From Stdlib Require Import ZArith List String Bool Lia Floats.
From stdpp Require Import base option list strings gmap.

Set Warnings "-inexact-float".

Open Scope string_scope.

(** ** Python exceptions *)

Module Py.

(** The exception classes the notebook can meet.  [UserClass] stands for
    any class defined by a client library, with its base class. *)
Inductive pyclass : Type :=
| BaseException
| SystemExit
| KeyboardInterrupt
| Exception
| ArithmeticError
| ZeroDivisionError
| LookupError
| KeyError
| TypeError
| ValueError
| AnalysisException
| UserClass (name : string) (base : pyclass).

#[global] Instance pyclass_eq_dec : EqDecision pyclass.
Proof. solve_decision. Defined.

(** Method resolution order: the class itself, then its ancestors. *)
Fixpoint mro (c : pyclass) : list pyclass :=
  match c with
  | BaseException => [BaseException]
  | SystemExit => [SystemExit; BaseException]
  | KeyboardInterrupt => [KeyboardInterrupt; BaseException]
  | Exception => [Exception; BaseException]
  | ArithmeticError => [ArithmeticError; Exception; BaseException]
  | ZeroDivisionError =>
      [ZeroDivisionError; ArithmeticError; Exception; BaseException]
  | LookupError => [LookupError; Exception; BaseException]
  | KeyError => [KeyError; LookupError; Exception; BaseException]
  | TypeError => [TypeError; Exception; BaseException]
  | ValueError => [ValueError; Exception; BaseException]
  | AnalysisException => [AnalysisException; Exception; BaseException]
  | UserClass _ base => c :: mro base
  end.

Definition issubclass (c d : pyclass) : bool := bool_decide (d ∈ mro c).

Record exn : Type := mk_exn { exn_class : pyclass; exn_msg : string }.

Definition isinstance (e : exn) (c : pyclass) : bool :=
  issubclass (exn_class e) c.

(** A call either returns or raises. *)
Inductive Result (A : Type) : Type :=
| Ok (a : A)
| Raise (e : exn).
Arguments Ok {A} a.
Arguments Raise {A} e.

#[global] Instance result_ret : MRet Result := fun A a => Ok a.
#[global] Instance result_bind : MBind Result := fun A B f m =>
  match m with
  | Ok a => f a
  | Raise e => Raise e
  end.

Definition raised {A} (m : Result A) : bool :=
  match m with Ok _ => false | Raise _ => true end.

End Py.
Import Py.

(** ** Cells, series and frames *)

Inductive DataType : Type :=
| LongType | DoubleType | StringType | BooleanType | TimestampType.

(** One cell of a column.  [VNull] is SQL NULL (pandas [None]); a double
    may also be NaN, which pandas counts as missing. *)
Inductive value : Type :=
| VNull
| VLong (n : Z)
| VDouble (x : float)
| VString (s : string)
| VBool (b : bool)
| VTimestamp (micros : Z).

Record Column : Type := mk_column {
  cname : string;
  ctype : DataType;
  cmeta : list (string * string);
  cdata : list value
}.

Definition DataFrame : Type := list Column.

(** Conversion of a 64-bit integer to the nearest double. *)
Definition long_to_double (n : Z) : float :=
  SF2Prim (SpecFloat.binary_normalize prec emax n 0 false).

Definition named (name : string) (c : Column) : bool :=
  String.eqb (cname c) name.

Definition get_column (df : DataFrame) (name : string) : option Column :=
  List.find (named name) df.

Definition columns (df : DataFrame) : list string := cname <$> df.

(** The cell of column [name] at row [i]. *)
Definition cell (df : DataFrame) (name : string) (i : nat) : option value :=
  c ← get_column df name; cdata c !! i.

(** Every column has [n] rows. *)
Definition frame_rows (n : nat) (df : DataFrame) : Prop :=
  Forall (fun c => length (cdata c) = n) df.

Definition frame_rowsb (n : nat) (df : DataFrame) : bool :=
  forallb (fun c => Nat.eqb (length (cdata c)) n) df.

Module Spark.

(** [df[name]] as a column expression: unresolved names fail analysis. *)
Definition col (df : DataFrame) (name : string) : Result Column :=
  match get_column df name with
  | Some c => Ok c
  | None => Raise (mk_exn AnalysisException name)
  end.

Definition replace_column (df : DataFrame) (c' : Column) : DataFrame :=
  (fun c => if named (cname c') c then c' else c) <$> df.

(** [DataFrame.withColumn]: replaces the column of that name in place,
    or appends a new last column. *)
Definition withColumn (df : DataFrame) (name : string) (ty : DataType)
    (data : list value) : DataFrame :=
  let c' := mk_column name ty [] data in
  if existsb (named name) df then replace_column df c' else (df ++ [c'])%list.

Fixpoint select (df : DataFrame) (names : list string) : Result DataFrame :=
  match names with
  | [] => Ok []
  | n :: rest =>
      c ← col df n;
      cs ← select df rest;
      Ok (c :: cs)
  end.

(** [DataFrame.drop]: a no-op when the frame has no such column. *)
Definition drop (df : DataFrame) (name : string) : DataFrame :=
  List.filter (fun c => negb (named name c)) df.

Definition set_metadata (meta : list (string * string)) (c : Column) : Column :=
  mk_column (cname c) (ctype c) meta (cdata c).

Definition withMetadata (df : DataFrame) (name : string)
    (meta : list (string * string)) : Result DataFrame :=
  c ← col df name;
  Ok (replace_column df (set_metadata meta c)).

(** [lit(v)]: the same cell on every row. *)
Definition lit (v : value) (n : nat) : list value := replicate n v.

(** Comparison of a double column with a literal; NULL compares to NULL. *)
Definition lt_double (v : value) (y : float) : option bool :=
  match v with
  | VDouble x => Some (x <? y)%float
  | VLong n => Some (long_to_double n <? y)%float
  | _ => None
  end.

(** [when(c1, v1).when(c2, v2)....otherwise(d)] on one row: the first
    branch whose condition is true; a NULL condition does not fire. *)
Fixpoint case_when (branches : list (option bool * value)) (otherwise : value)
    : value :=
  match branches with
  | [] => otherwise
  | (Some true, v) :: _ => v
  | _ :: rest => case_when rest otherwise
  end.

(** The engine's seeded generator behind [rand(seed)]: one generator per
    partition, seeded from the seed and the partition index, advanced
    once per row of that partition.  The generator itself belongs to the
    engine and is a parameter of the model. *)
Record Generator : Type := mk_generator {
  gen_state : Type;
  gen_seed : Z -> gen_state;
  gen_nextDouble : gen_state -> float * gen_state
}.

Fixpoint draws (G : Generator) (s : gen_state G) (n : nat) : list float :=
  match n with
  | O => []
  | S k => let (x, s') := gen_nextDouble G s in x :: draws G s' k
  end.

(** The column [rand(seed)] over a frame laid out in partitions of the
    given sizes. *)
Definition rand (G : Generator) (seed : Z) (layout : list nat) : list value :=
  concat (imap (fun p n => VDouble <$> draws G (gen_seed G (seed + Z.of_nat p)) n)
               layout).

End Spark.
Import Spark.

(** ** Notebook constants *)

Definition primary_key : string := "customer_id".
Definition timestamp_col : string := "transaction_ts".
Definition label_col : string := "churn".
Definition feature_table_name : string := "churn_feature_table".

(** ** compute_service_features *)

(** [s == lit] on a pandas series: elementwise, false for a missing cell
    and for a cell of another kind. *)
Definition series_eq_str (s : list value) (lit : string) : list bool :=
  (fun v => match v with VString x => String.eqb x lit | _ => false end) <$> s.

(** [.astype('double')] on a boolean series. *)
Definition bool_astype_double (s : list bool) : list float :=
  (fun b : bool => if b then 1%float else 0%float) <$> s.

(** What Python's [sum] accumulates: its start value, then series. *)
Inductive pynum : Type :=
| PyScalar (x : float)
| PySeries (s : list float).

Definition py_add (acc : pynum) (s : list float) : pynum :=
  match acc with
  | PyScalar x => PySeries ((fun y => x + y)%float <$> s)
  | PySeries a => PySeries (zip_with PrimFloat.add a s)
  end.

(** [sum(items)]: left to right from the start value 0. *)
Definition py_sum (items : list (list float)) : pynum :=
  fold_left py_add items (PyScalar 0%float).

Definition service_columns : list string :=
  ["online_security"; "online_backup"; "device_protection";
   "tech_support"; "streaming_tv"; "streaming_movies"].

(** The nested pandas UDF, declared to return doubles. *)
Definition num_optional_services (cols : list (list value)) : Result (list value) :=
  match py_sum ((fun s => bool_astype_double (series_eq_str s "Yes")) <$> cols) with
  | PySeries r => Ok (VDouble <$> r)
  | PyScalar _ => Raise (mk_exn TypeError "num_optional_services")
  end.

Definition compute_service_features (inputDF : DataFrame) : Result DataFrame :=
  cols ← mapM (col inputDF) service_columns;
  r ← num_optional_services (cdata <$> cols);
  Ok (withColumn inputDF "num_optional_services" DoubleType r).

(** ** clean_churn_features *)

Module Pandas.

(** Dtype names handed to [astype] in the notebook. *)
Inductive dtype : Type := dtype_double | dtype_string.

Definition spark_type (t : dtype) : DataType :=
  match t with dtype_double => DoubleType | dtype_string => StringType end.

(** Missing in the pandas sense: NULL, or NaN in a fractional column. *)
Definition isnull (v : value) : bool :=
  match v with
  | VNull => true
  | VDouble x => is_nan x
  | _ => false
  end.

(** A cell belongs to a column type; NULL belongs to every type. *)
Definition has_type (t : DataType) (v : value) : bool :=
  match v, t with
  | VNull, _ => true
  | VLong _, LongType => true
  | VDouble _, DoubleType => true
  | VString _, StringType => true
  | VBool _, BooleanType => true
  | VTimestamp _, TimestampType => true
  | _, _ => false
  end.

Definition well_typed (c : Column) : Prop :=
  Forall (fun v => has_type (ctype c) v = true) (cdata c).

(** Equality of a numeric cell with an integer key; NULL for a NULL
    cell.  The indicator column is numeric: cells of other kinds, which
    the engine would first coerce, are not given a match here. *)
Definition eq_long (v : value) (k : Z) : option bool :=
  match v with
  | VLong n => Some (n =? k)%Z
  | VDouble x => Some (x =? long_to_double k)%float
  | _ => None
  end.

Section Casts.

(** The engine's cast of text to double (NULL when the text is not a
    number) and its rendering of a non-text cell as text. *)
Variable parse_double : string -> option float.
Variable show_value : value -> string.

Definition cast_value (t : dtype) (v : value) : value :=
  match t, v with
  | _, VNull => VNull
  | dtype_double, VLong n => VDouble (long_to_double n)
  | dtype_double, VDouble x => VDouble x
  | dtype_double, VString s =>
      match parse_double s with Some x => VDouble x | None => VNull end
  | dtype_double, VBool b => VDouble (if b then 1 else 0)%float
  | dtype_double, VTimestamp t => VDouble (long_to_double t / 1000000)%float
  | dtype_string, VString s => VString s
  | dtype_string, _ => VString (show_value v)
  end.

Definition series_astype (t : dtype) (c : Column) : Column :=
  mk_column (cname c) (spark_type t) (cmeta c) (cast_value t <$> cdata c).

Fixpoint dict_get {A} (d : list (string * A)) (k : string) : option A :=
  match d with
  | [] => None
  | (k', a) :: rest => if String.eqb k' k then Some a else dict_get rest k
  end.

(** [DataFrame.astype(dict)]: every key must be a column; the listed
    columns are cast, the others kept. *)
Definition astype (dtypes : list (string * dtype)) (psdf : DataFrame)
    : Result DataFrame :=
  if forallb (fun kv => existsb (named (fst kv)) psdf) dtypes
  then Ok ((fun c => match dict_get dtypes (cname c) with
                     | Some t => series_astype t c
                     | None => c
                     end) <$> psdf)
  else Raise (mk_exn KeyError
                "Only a column name can be used for the key in a dtype mappings argument.").

(** [Series.fillna(x)] with a float [x]: missing cells take [x] and
    the column takes the common type of [x] and its own. *)
Definition series_fillna (x : float) (c : Column) : Result Column :=
  match ctype c with
  | DoubleType =>
      Ok (mk_column (cname c) DoubleType (cmeta c)
            ((fun v => if isnull v then VDouble x else v) <$> cdata c))
  | LongType =>
      Ok (mk_column (cname c) DoubleType (cmeta c)
            ((fun v => if isnull v then VDouble x else cast_value dtype_double v)
               <$> cdata c))
  | StringType =>
      Ok (mk_column (cname c) StringType (cmeta c)
            ((fun v => if isnull v then VString (show_value (VDouble x)) else v)
               <$> cdata c))
  | BooleanType | TimestampType =>
      Raise (mk_exn AnalysisException "DATATYPE_MISMATCH")
  end.

(** [DataFrame.fillna({name: x})]: a key that names no column is
    ignored. *)
Definition fillna (name : string) (x : float) (psdf : DataFrame)
    : Result DataFrame :=
  match get_column psdf name with
  | None => Ok psdf
  | Some c => c' ← series_fillna x c; Ok (replace_column psdf c')
  end.

End Casts.

(** [psdf[name]]. *)
Definition getitem (psdf : DataFrame) (name : string) : Result Column :=
  match get_column psdf name with
  | Some c => Ok c
  | None => Raise (mk_exn KeyError name)
  end.

(** [Series.map(dict)]: a chain of [when(cell == key, value)] in the
    dict's order, NULL when no key matches. *)
Definition series_map (d : list (Z * string)) (c : Column) : Column :=
  mk_column (cname c) StringType []
    ((fun v => case_when ((fun kv => (eq_long v (fst kv), VString (snd kv))) <$> d) VNull)
       <$> cdata c).

(** [psdf[name] = series]. *)
Definition setitem (psdf : DataFrame) (name : string) (s : Column) : DataFrame :=
  withColumn psdf name (ctype s) (cdata s).

(** The conversions between the two APIs keep columns and cells. *)
Definition pandas_api (df : DataFrame) : DataFrame := df.
Definition to_spark (psdf : DataFrame) : DataFrame := psdf.

End Pandas.
Import Pandas.

Section Cleaner.

Variable parse_double : string -> option float.
Variable show_value : value -> string.

Definition clean_churn_features (dataDF : DataFrame) : Result DataFrame :=
  let data_psdf := pandas_api dataDF in
  senior ← getitem data_psdf "senior_citizen";
  let data_psdf :=
    setitem data_psdf "senior_citizen" (series_map [(1%Z, "Yes"); (0%Z, "No")] senior) in
  data_psdf ← astype parse_double show_value
                [("total_charges", dtype_double); ("senior_citizen", dtype_string)]
                data_psdf;
  data_psdf ← fillna parse_double show_value "tenure" 0 data_psdf;
  data_psdf ← fillna parse_double show_value "monthly_charges" 0 data_psdf;
  data_psdf ← fillna parse_double show_value "total_charges" 0 data_psdf;
  let data_cleanDF := to_spark data_psdf in
  data_cleanDF ← withMetadata data_cleanDF primary_key
                   [("spark.contentAnnotation.semanticType", "native")];
  data_cleanDF ← withMetadata data_cleanDF "num_optional_services"
                   [("spark.contentAnnotation.semanticType", "numeric")];
  Ok data_cleanDF.

(** The cell of a timestamp column cast from epoch seconds: NULL for NaN
    and the infinities, else the microseconds truncated to a long. *)
Definition double_to_timestamp (x : float) : value :=
  match Prim2SF (x * 1000000)%float with
  | S754_zero _ => VTimestamp 0
  | S754_finite s m e =>
      let t := SpecFloat.cond_Zopp s (Z.shiftl (Z.pos m) e) in
      VTimestamp (Z.max (- 2 ^ 63) (Z.min (2 ^ 63 - 1) t))
  | _ => VNull
  end.

Definition nrows (df : DataFrame) : nat :=
  match df with
  | [] => O
  | c :: _ => length (cdata c)
  end.

(** The cell "Compute Churn Features and append a timestamp". *)
Definition churn_features_n_preds (this_time : float) (telcoDF : DataFrame)
    : Result DataFrame :=
  services ← compute_service_features telcoDF;
  cleaned ← clean_churn_features services;
  Ok (withColumn cleaned timestamp_col TimestampType
        (lit (double_to_timestamp this_time) (nrows cleaned))).

End Cleaner.

(** ** The label table and its split column *)

Definition train_ratio : float := 0.7.
Definition val_ratio : float := 0.2.
Definition test_ratio : float := 0.1.

(** The [when] chain of the split column on one draw. *)
Definition split_of (random : value) : value :=
  case_when
    [(lt_double random train_ratio, VString "train");
     (lt_double random (train_ratio + val_ratio)%float, VString "validate")]
    (VString "test").

(** The frame written to the label table, for a frame laid out in
    partitions of the given sizes. *)
Definition label_frame (G : Generator) (layout : list nat) (df : DataFrame)
    : Result DataFrame :=
  selected ← select df [primary_key; timestamp_col; label_col];
  let with_random := withColumn selected "random" DoubleType (rand G 42 layout) in
  random ← col with_random "random";
  let with_split :=
    withColumn with_random "split" StringType (split_of <$> cdata random) in
  Ok (drop with_split "random").

(** The split label a frame gives to a primary key: that of the first row
    carrying the key. *)
Fixpoint index_of (k : string) (keys : list value) : option nat :=
  match keys with
  | [] => None
  | VString s :: rest =>
      if String.eqb s k then Some O else S <$> index_of k rest
  | _ :: rest => S <$> index_of k rest
  end.

Definition split_label (labels : DataFrame) (key : string) : option value :=
  keys ← get_column labels primary_key;
  i ← index_of key (cdata keys);
  cell labels "split" i.

(** ** The workspace: catalog tables, online tables, standard output *)

Record Table : Type := mk_table {
  tbl_frame : DataFrame;
  tbl_not_null : list string;
  tbl_constraints : list (string * list string)
}.

Record Workspace : Type := mk_workspace {
  uc_tables : gmap string Table;
  online_tables : gset string;
  stdout : list string
}.

(** A notebook command: runs against the workspace, and returns or
    raises; what it changed before raising stays changed. *)
Definition Run (A : Type) : Type := Workspace -> Workspace * Result A.

#[global] Instance run_ret : MRet Run := fun A a ws => (ws, Ok a).
#[global] Instance run_bind : MBind Run := fun A B f m ws =>
  match m ws with
  | (ws', Ok a) => f a ws'
  | (ws', Raise e) => (ws', Raise e)
  end.

Definition lift {A} (r : Result A) : Run A := fun ws => (ws, r).

Definition set_tables (ws : Workspace) (t : gmap string Table) : Workspace :=
  mk_workspace t (online_tables ws) (stdout ws).

Definition print (line : string) : Run unit := fun ws =>
  (mk_workspace (uc_tables ws) (online_tables ws) (stdout ws ++ [line])%list, Ok tt).

(** [try: body / except cls as e: handler(e)]. *)
Definition try_except {A} (body : Run A) (cls : pyclass) (handler : exn -> Run A)
    : Run A := fun ws =>
  match body ws with
  | (ws', Raise e) => if isinstance e cls then handler e ws' else (ws', Raise e)
  | done => done
  end.

Definition class_name (c : pyclass) : string :=
  match c with
  | BaseException => "BaseException"
  | SystemExit => "SystemExit"
  | KeyboardInterrupt => "KeyboardInterrupt"
  | Exception => "Exception"
  | ArithmeticError => "ArithmeticError"
  | ZeroDivisionError => "ZeroDivisionError"
  | LookupError => "LookupError"
  | KeyError => "KeyError"
  | TypeError => "TypeError"
  | ValueError => "ValueError"
  | AnalysisException => "AnalysisException"
  | UserClass name _ => name
  end.

Definition repr (e : exn) : string :=
  class_name (exn_class e) ++ "('" ++ exn_msg e ++ "')".

Definition pprint (e : exn) : Run unit := print (repr e).

(** The SQL statements the notebook issues, parsed. *)
Inductive statement : Type :=
| AlterColumnSetNotNull (table column : string)
| AddPrimaryKey (table constraint : string) (cols : list string)
| DropTableIfExists (table : string).

Definition contains (l : list string) (s : string) : bool :=
  existsb (String.eqb s) l.

Definition is_sql_null (v : value) : bool :=
  match v with VNull => true | _ => false end.

Definition spark_sql (q : statement) : Run unit := fun ws =>
  match q with
  | AlterColumnSetNotNull table column =>
      match uc_tables ws !! table with
      | None => (ws, Raise (mk_exn AnalysisException "TABLE_OR_VIEW_NOT_FOUND"))
      | Some t =>
          match get_column (tbl_frame t) column with
          | None => (ws, Raise (mk_exn AnalysisException "UNRESOLVED_COLUMN"))
          | Some c =>
              if existsb is_sql_null (cdata c)
              then (ws, Raise (mk_exn AnalysisException "NOT NULL constraint violated"))
              else (set_tables ws
                      (<[table := mk_table (tbl_frame t) (column :: tbl_not_null t)
                                    (tbl_constraints t)]> (uc_tables ws)),
                    Ok tt)
          end
      end
  | AddPrimaryKey table constraint cols =>
      match uc_tables ws !! table with
      | None => (ws, Raise (mk_exn AnalysisException "TABLE_OR_VIEW_NOT_FOUND"))
      | Some t =>
          if contains (fst <$> tbl_constraints t) constraint
          then (ws, Raise (mk_exn AnalysisException "CONSTRAINT_ALREADY_EXISTS"))
          else if forallb (contains (tbl_not_null t)) cols
          then (set_tables ws
                  (<[table := mk_table (tbl_frame t) (tbl_not_null t)
                                ((constraint, cols) :: tbl_constraints t)]> (uc_tables ws)),
                Ok tt)
          else (ws, Raise (mk_exn AnalysisException "nullable primary key column"))
      end
  | DropTableIfExists table =>
      (set_tables ws (delete table (uc_tables ws)), Ok tt)
  end.

(** [df.write.format("delta").mode("overwrite")
      .option("overwriteSchema", "true").saveAsTable(name)]:
    the table takes the frame's columns and rows; column nullability
    follows the new schema, and constraints already recorded for a table
    of that name stay recorded. *)
Definition saveAsTable (name : string) (df : DataFrame) : Run unit := fun ws =>
  let kept := match uc_tables ws !! name with
              | Some t => tbl_constraints t
              | None => []
              end in
  (set_tables ws (<[name := mk_table df [] kept]> (uc_tables ws)), Ok tt).

Section Notebook.

(** Names set by the set-up notebook. *)
Variables catalog db advanced_label_table_name : string.

(** What the workspace client raises for an online table that does not
    exist: some exception of the client library. *)
Variable online_missing : exn.

Definition qualified (name : string) : string :=
  catalog ++ "." ++ db ++ "." ++ name.

Definition online_tables_get (name : string) : Run unit := fun ws =>
  if bool_decide (name ∈ online_tables ws) then (ws, Ok tt)
  else (ws, Raise online_missing).

Definition online_tables_delete (name : string) : Run unit := fun ws =>
  if bool_decide (name ∈ online_tables ws)
  then (mk_workspace (uc_tables ws) (online_tables ws ∖ {[name]}) (stdout ws), Ok tt)
  else (ws, Raise online_missing).

(** [fe.drop_table]: raises [ValueError] for a table that does not
    exist, the case the notebook's handler reports as such. *)
Definition fe_drop_table (name : string) : Run unit := fun ws =>
  match uc_tables ws !! name with
  | Some _ => (set_tables ws (delete name (uc_tables ws)), Ok tt)
  | None => (ws, Raise (mk_exn ValueError name))
  end.

(** The cell "Extract ground-truth labels in a separate table and drop
    from Feature table"; returns [churn_featuresDF]. *)
Definition label_cell (G : Generator) (layout : list nat)
    (churn_features_n_predsDF : DataFrame) : Run DataFrame :=
  labels ← lift (label_frame G layout churn_features_n_predsDF);
  _ ← saveAsTable (qualified advanced_label_table_name) labels;
  mret (drop churn_features_n_predsDF label_col).

(** The cell adding the primary-key constraint to the label table. *)
Definition constraints_cell : Run unit :=
  let table := qualified advanced_label_table_name in
  _ ← spark_sql (AlterColumnSetNotNull table primary_key);
  _ ← spark_sql (AlterColumnSetNotNull table timestamp_col);
  spark_sql (AddPrimaryKey table (advanced_label_table_name ++ "_pk")
               [primary_key; timestamp_col]).

(** The two cells in notebook order; the value is [churn_featuresDF]. *)
Definition label_cells (G : Generator) (layout : list nat)
    (churn_features_n_predsDF : DataFrame) : Run DataFrame :=
  churn_featuresDF ← label_cell G layout churn_features_n_predsDF;
  _ ← constraints_cell;
  mret churn_featuresDF.

(** The cell "Drop any existing online table (optional)". *)
Definition drop_online_table_cell : Run unit :=
  let name := qualified feature_table_name ++ "_online_table" in
  try_except
    (online_table_specs ← online_tables_get name;
     _ ← online_tables_delete name;
     print ("Dropping online feature table: " ++ name))
    Exception
    (fun e => pprint e).

(** The cell "Drop feature table if it already exists (optional)". *)
Definition drop_feature_table_cell : Run unit :=
  let name := qualified feature_table_name in
  try_except
    (_ ← fe_drop_table name;
     _ ← spark_sql (DropTableIfExists name);
     print ("Dropping Feature Table " ++ name))
    ValueError
    (fun ve => print ("Feature Table " ++ name ++ " doesn't exist")).

Definition pre_drop_cells : Run unit :=
  _ ← drop_online_table_cell;
  drop_feature_table_cell.

End Notebook.

(** ** The on-demand function avg_price_increase *)

Module PyEval.

(** The Python values the function body handles. *)
Inductive pyval : Type :=
| PyFloat (x : float)
| PyInt (n : Z)
| PyNone.

Definition as_float (v : pyval) : option float :=
  match v with
  | PyFloat x => Some x
  | PyInt n => Some (long_to_double n)
  | PyNone => None
  end.

Definition type_error {A} (op : string) : Result A :=
  Raise (mk_exn TypeError ("unsupported operand type(s) for " ++ op)).

(** [a > b]. *)
Definition py_gt (a b : pyval) : Result bool :=
  match a, b with
  | PyInt m, PyInt n => Ok (n <? m)%Z
  | _, _ =>
      match as_float a, as_float b with
      | Some x, Some y => Ok (y <? x)%float
      | _, _ => type_error ">"
      end
  end.

(** [a / b]: true division; a zero divisor raises. *)
Definition py_truediv (a b : pyval) : Result pyval :=
  match as_float a, as_float b with
  | Some x, Some y =>
      if (y =? 0)%float
      then Raise (mk_exn ZeroDivisionError "float division by zero")
      else Ok (PyFloat (x / y))
  | _, _ => type_error "/"
  end.

(** [a - b]. *)
Definition py_sub (a b : pyval) : Result pyval :=
  match a, b with
  | PyInt m, PyInt n => Ok (PyInt (m - n))
  | _, _ =>
      match as_float a, as_float b with
      | Some x, Some y => Ok (PyFloat (x - y))
      | _, _ => type_error "-"
      end
  end.

End PyEval.
Import PyEval.

(** The body between the [$$] marks of [function_def]. *)
Definition avg_price_increase_body
    (monthly_charges_in tenure_in total_charges_in : pyval) : Result pyval :=
  positive ← py_gt tenure_in (PyInt 0);
  if positive : bool then
    quotient ← py_truediv total_charges_in tenure_in;
    py_sub monthly_charges_in quotient
  else
    Ok (PyInt 0).

(** A SQL FLOAT is a binary32 number, held here as the double of the same
    value.  Narrowing a double to it rounds to the nearest binary32
    number, ties to even, and overflows to an infinity; zeros, infinities
    and NaN are kept. *)
Definition double_to_float (x : float) : float :=
  match Prim2SF x with
  | S754_finite s m e =>
      SF2Prim (SpecFloat.binary_normalize 24 128 (if s then Z.neg m else Z.pos m) e s)
  | _ => x
  end.

Section Registered_function.

(** What the engine makes of a Python integer returned where FLOAT is
    declared.  [function_def] does not say, and engines differ: the
    number converted, or NULL for a value that is not a Python float. *)
Variable int_to_float : Z -> option float.

(** [RETURNS FLOAT]: the SQL value made of the body's Python value;
    [None] is NULL. *)
Definition returns_float (v : pyval) : option float :=
  match v with
  | PyFloat x => Some (double_to_float x)
  | PyInt n => int_to_float n
  | PyNone => None
  end.

(** The function as [function_def] registers it, on arguments that are
    numbers: the three DOUBLE parameters reach the body as Python floats
    and the value it returns is converted to the declared FLOAT. *)
Definition avg_price_increase (monthly_charges_in tenure_in total_charges_in : float)
    : Result (option float) :=
  returned ← avg_price_increase_body (PyFloat monthly_charges_in) (PyFloat tenure_in)
               (PyFloat total_charges_in);
  Ok (returns_float returned).

End Registered_function.

(** ** Vocabulary of the statements *)

(** A cell that reads "Yes". *)
Definition is_yes (o : option value) : bool :=
  match o with
  | Some (VString s) => String.eqb s "Yes"
  | _ => false
  end.

(** The number of tracked service columns that read "Yes" on row [i]. *)
Definition yes_count (df : DataFrame) (i : nat) : nat :=
  length (List.filter (fun c => is_yes (cell df c i)) service_columns).

Definition count_to_double (k : nat) : float := long_to_double (Z.of_nat k).

(** What [py_sum] holds after some items: the start value, or a series
    of [n] numbers. *)
Definition sum_of_length (n : nat) (acc : pynum) : Prop :=
  match acc with
  | PyScalar _ => True
  | PySeries a => length a = n
  end.

(** The indicator the UDF adds up for one cell. *)
Definition yes_indicator (v : value) : float :=
  if is_yes (Some v) then 1%float else 0%float.

(** A column [fillna] accepts: it is numeric or text. *)
Definition fillable (c : Column) : bool :=
  match ctype c with
  | BooleanType | TimestampType => false
  | _ => true
  end.

(** The column holds numbers: whole or fractional. *)
Definition numeric (c : Column) : bool :=
  match ctype c with
  | LongType | DoubleType => true
  | _ => false
  end.

(** A missing number reads as zero. *)
Definition or_zero (o : option float) : float :=
  match o with
  | Some x => if is_nan x then 0%float else x
  | None => 0%float
  end.

(** The cell equals the integer [k], as a whole or a fractional number. *)
Definition reads_as (k : Z) (v : value) : bool :=
  match v with
  | VLong n => (n =? k)%Z
  | VDouble x => (x =? long_to_double k)%float
  | _ => false
  end.

Definition number_or_null (v : value) : bool :=
  has_type LongType v || has_type DoubleType v.

(** The frame handed to [clean_churn_features] has the columns the
    function touches, the two it fills directly being numeric or text. *)
Record cleanable (df : DataFrame)
    (senior tenure monthly total key services : Column) : Prop := {
  has_senior : get_column df "senior_citizen" = Some senior;
  has_tenure : get_column df "tenure" = Some tenure;
  has_monthly : get_column df "monthly_charges" = Some monthly;
  has_total : get_column df "total_charges" = Some total;
  has_key : get_column df primary_key = Some key;
  has_services : get_column df "num_optional_services" = Some services;
  tenure_fillable : fillable tenure = true;
  monthly_fillable : fillable monthly = true
}.

Definition untouched_by_cleaning (n : string) : Prop :=
  n ∉ ["senior_citizen"; "total_charges"; "tenure"; "monthly_charges"].

Section Cleaner_vocabulary.

Variable parse_double : string -> option float.
Variable show_value : value -> string.

(** The column [series_fillna] returns. *)
Definition filled (x : float) (c : Column) : Column :=
  match series_fillna parse_double show_value x c with
  | Ok c' => c'
  | Raise _ => c
  end.

(** The numeric coercion of a cell: the engine's cast to double, when it
    yields a number. *)
Definition to_double (v : value) : option float :=
  match cast_value parse_double show_value dtype_double v with
  | VDouble x => Some x
  | _ => None
  end.

(** The remap of the indicator followed by [astype("string")]. *)
Definition remapped (v : value) : value :=
  cast_value parse_double show_value dtype_string
    (case_when [(eq_long v 1, VString "Yes"); (eq_long v 0, VString "No")] VNull).

(** The cleaned columns, from the columns of the input. *)
Definition cleaned_senior (senior : Column) : Column :=
  series_astype parse_double show_value dtype_string
    (mk_column "senior_citizen" StringType []
       (cdata (series_map [(1%Z, "Yes"); (0%Z, "No")] senior))).

Definition cleaned_total (total : Column) : Column :=
  filled 0 (series_astype parse_double show_value dtype_double total).

Definition cleaned_lookup (df : DataFrame)
    (senior tenure monthly total key services : Column) (n : string)
    : option Column :=
  if String.eqb n "num_optional_services" then
    Some (set_metadata [("spark.contentAnnotation.semanticType", "numeric")] services)
  else if String.eqb n "customer_id" then
    Some (set_metadata [("spark.contentAnnotation.semanticType", "native")] key)
  else if String.eqb n "total_charges" then Some (cleaned_total total)
  else if String.eqb n "monthly_charges" then Some (filled 0 monthly)
  else if String.eqb n "tenure" then Some (filled 0 tenure)
  else if String.eqb n "senior_citizen" then Some (cleaned_senior senior)
  else get_column df n.

End Cleaner_vocabulary.

(** The threshold rule on one draw. *)
Definition split_rule (r : float) : string :=
  if (r <? train_ratio)%float then "train"
  else if (r <? train_ratio + val_ratio)%float then "validate"
  else "test".

(** The [k]-th draw (from 0) of the generator of partition [p]. *)
Definition draw (G : Generator) (seed : Z) (p k : nat) : option float :=
  draws G (gen_seed G (seed + Z.of_nat p)) (S k) !! k.

(** Row [i] of a frame, across its columns. *)
Definition row (df : DataFrame) (i : nat) : list (option value) :=
  (fun c => cdata c !! i) <$> df.

Definition rows (df : DataFrame) : list (list (option value)) :=
  row df <$> seq 0 (nrows df).

(** The property C1 claims of the labeling step: the split label of a
    primary key does not change when the same rows arrive in another
    order or in other partitions. *)
Definition split_by_row_identity (G : Generator) : Prop :=
  forall (df df' : DataFrame) (layout layout' : list nat) (out out' : DataFrame),
    columns df = columns df' ->
    rows df ≡ₚ rows df' ->
    sum_list layout = nrows df ->
    sum_list layout' = nrows df' ->
    label_frame G layout df = Ok out ->
    label_frame G layout' df' = Ok out' ->
    forall key, split_label out key = split_label out' key.

(** ** Sample data *)

(** Two customers, in the given order. *)
Definition two_customers (a b : string) : DataFrame :=
  [mk_column primary_key StringType [] [VString a; VString b];
   mk_column timestamp_col TimestampType [] [VTimestamp 0; VTimestamp 0];
   mk_column label_col StringType [] [VString "No"; VString "No"]].

(** A small generator: the state counts up by two from the seed, and a
    draw is 0.95 on states divisible by four and 0.5 elsewhere. *)
Definition stepping_generator : Generator :=
  mk_generator Z (fun seed => seed)
    (fun s => (if (s mod 4 =? 0)%Z then 0.95%float else 0.5%float, (s + 2)%Z)).

(** Three customers of the bronze table: one cell is missing in each of
    senior_citizen, tenure, total_charges and online_backup, one monthly
    charge is NaN, one total charge is blank text, and one service cell
    reads neither "Yes" nor "No". *)
Definition sample_key : Column :=
  mk_column "customer_id" StringType []
    [VString "7590-VHVEG"; VString "5575-GNVDE"; VString "3668-QPYBK"].

Definition sample_senior : Column :=
  mk_column "senior_citizen" LongType [] [VLong 0; VLong 1; VNull].

Definition sample_tenure : Column :=
  mk_column "tenure" LongType [] [VLong 1; VNull; VLong 2].

Definition sample_monthly : Column :=
  mk_column "monthly_charges" DoubleType []
    [VDouble 29.85; VDouble 56.95; VDouble nan].

Definition sample_total : Column :=
  mk_column "total_charges" StringType [] [VString "29.85"; VString " "; VNull].

Definition sample_churn : Column :=
  mk_column "churn" StringType [] [VString "No"; VString "No"; VString "Yes"].

Definition sample_telco : DataFrame :=
  [sample_key; sample_senior; sample_tenure;
   mk_column "online_security" StringType [] [VString "No"; VString "Yes"; VString "Yes"];
   mk_column "online_backup" StringType [] [VString "Yes"; VString "No"; VNull];
   mk_column "device_protection" StringType []
     [VString "No"; VString "Yes"; VString "No internet service"];
   mk_column "tech_support" StringType [] [VString "No"; VString "No"; VString "Yes"];
   mk_column "streaming_tv" StringType [] [VString "No"; VString "No"; VString "Yes"];
   mk_column "streaming_movies" StringType [] [VString "No"; VString "No"; VString "Yes"];
   sample_monthly; sample_total; sample_churn].

Definition sample_parse (s : string) : option float :=
  if String.eqb s "29.85" then Some 29.85%float else None.

Definition sample_show (v : value) : string := "0.0".

Definition sample_count : Column :=
  mk_column "num_optional_services" DoubleType [] [VDouble 1; VDouble 2; VDouble 4].

(** [sample_telco] after [compute_service_features]. *)
Definition sample_services : DataFrame := (sample_telco ++ [sample_count])%list.

(** The sample after the timestamp is appended, and a fresh workspace. *)
Definition sample_features : DataFrame :=
  match churn_features_n_preds sample_parse sample_show 1700000000 sample_telco with
  | Ok df => df
  | Raise _ => []
  end.

Definition fresh_workspace : Workspace := mk_workspace ∅ ∅ [].

(** The client's error for an online table that does not exist. *)
Definition sample_not_found : exn :=
  mk_exn (UserClass "NotFound" (UserClass "DatabricksError" Exception))
    "Online table does not exist".

(** The catalog after the label cell ran on the sample, before the
    constraint cell. *)
Definition sample_saved : Workspace :=
  fst (label_cell "main" "dbdemos_mlops" "advanced_churn_label_table"
         stepping_generator [3] sample_features fresh_workspace).

(** A label table whose second primary key is NULL, alone in a catalog. *)
Definition null_key_column : Column :=
  mk_column primary_key StringType [] [VString "A"; VNull].

Definition null_key_table : Table :=
  mk_table
    [null_key_column;
     mk_column timestamp_col TimestampType [] [VTimestamp 0; VTimestamp 0];
     mk_column label_col StringType [] [VString "No"; VString "No"];
     mk_column "split" StringType [] [VString "train"; VString "test"]]
    [] [].

Definition null_key_workspace : Workspace :=
  mk_workspace
    (<[qualified "main" "dbdemos_mlops" "advanced_churn_label_table" := null_key_table]> ∅)
    ∅ [].

Definition sample_interrupt : exn := mk_exn KeyboardInterrupt "".

(** Two ways an engine may read a Python integer returned for a FLOAT:
    as the number it is, or as NULL because it is not a Python float. *)
Definition int_as_number (n : Z) : option float :=
  Some (double_to_float (long_to_double n)).

Definition int_as_null (n : Z) : option float := None.

(** * Properties *)

Open Scope list_scope.

(** ** Frames *)

Lemma named_eq (n : string) (c : Column) : named n c = true <-> cname c = n.
Proof. unfold named. apply String.eqb_eq. Qed.

Lemma named_neq (n : string) (c : Column) : named n c = false <-> cname c <> n.
Proof. unfold named. apply String.eqb_neq. Qed.

Lemma get_column_name (df : DataFrame) (n : string) (c : Column) :
  get_column df n = Some c -> cname c = n.
Proof.
  unfold get_column. intros H. apply find_some in H as [_ H].
  now apply named_eq.
Qed.

Lemma get_column_cons (c : Column) (df : DataFrame) (n : string) :
  get_column (c :: df) n = if named n c then Some c else get_column df n.
Proof. reflexivity. Qed.

Lemma existsb_named (df : DataFrame) (n : string) :
  existsb (named n) df = true <-> is_Some (get_column df n).
Proof.
  induction df as [|c df IH]; cbn [existsb].
  - split; [discriminate | intros [? ?]; discriminate].
  - rewrite get_column_cons. destruct (named n c); cbn [orb]; [|exact IH].
    split; eauto.
Qed.

Lemma existsb_named_false (df : DataFrame) (n : string) :
  existsb (named n) df = false <-> get_column df n = None.
Proof.
  rewrite <- not_true_iff_false, existsb_named, <- eq_None_not_Some. tauto.
Qed.

(** A map over the columns that keeps their names commutes with lookup. *)
Lemma get_column_fmap (f : Column -> Column) (df : DataFrame) (n : string) :
  (forall c, cname (f c) = cname c) ->
  get_column (f <$> df) n = f <$> get_column df n.
Proof.
  intros Hf. induction df as [|c df IH]; [reflexivity|].
  rewrite fmap_cons, !get_column_cons.
  unfold named at 1. rewrite Hf. fold (named n c).
  destruct (named n c); [reflexivity | exact IH].
Qed.

Lemma get_column_replace_ne (df : DataFrame) (c' : Column) (n : string) :
  cname c' <> n -> get_column (replace_column df c') n = get_column df n.
Proof.
  intros Hne. unfold replace_column.
  induction df as [|c df IH]; [reflexivity|].
  rewrite fmap_cons, !get_column_cons, IH.
  destruct (named (cname c') c) eqn:Hc; [|reflexivity].
  apply named_eq in Hc.
  assert (named n c' = false) as -> by now apply named_neq.
  assert (named n c = false) as -> by (apply named_neq; congruence).
  reflexivity.
Qed.

Lemma get_column_replace_eq (df : DataFrame) (c' : Column) :
  is_Some (get_column df (cname c')) ->
  get_column (replace_column df c') (cname c') = Some c'.
Proof.
  unfold replace_column.
  induction df as [|c df IH]; intros [x Hx]; [discriminate|].
  rewrite fmap_cons, get_column_cons.
  rewrite get_column_cons in Hx.
  destruct (named (cname c') c) eqn:Hc.
  - assert (named (cname c') c' = true) as -> by now apply named_eq.
    reflexivity.
  - rewrite Hc. apply IH. eauto.
Qed.

Lemma get_column_app_r (df : DataFrame) (c : Column) (n : string) :
  get_column df n = None ->
  get_column (df ++ [c]) n = if named n c then Some c else None.
Proof.
  induction df as [|d df IH]; [reflexivity|].
  rewrite <- app_comm_cons, !get_column_cons.
  destruct (named n d); [discriminate | exact IH].
Qed.

Lemma get_column_app_l (df : DataFrame) (c : Column) (n : string) :
  cname c <> n -> get_column (df ++ [c]) n = get_column df n.
Proof.
  intros Hne. induction df as [|d df IH].
  - rewrite app_nil_l, get_column_cons.
    now assert (named n c = false) as -> by now apply named_neq.
  - rewrite <- app_comm_cons, !get_column_cons, IH. reflexivity.
Qed.

Lemma get_column_withColumn_eq (df : DataFrame) (n : string) (ty : DataType)
    (d : list value) :
  get_column (withColumn df n ty d) n = Some (mk_column n ty [] d).
Proof.
  unfold withColumn. destruct (existsb (named n) df) eqn:E.
  - apply existsb_named in E.
    exact (get_column_replace_eq df (mk_column n ty [] d) E).
  - apply existsb_named_false in E. rewrite get_column_app_r by exact E.
    unfold named; simpl. now rewrite String.eqb_refl.
Qed.

Lemma get_column_withColumn_ne (df : DataFrame) (n m : string) (ty : DataType)
    (d : list value) :
  n <> m -> get_column (withColumn df n ty d) m = get_column df m.
Proof.
  intros Hne. unfold withColumn. destruct (existsb (named n) df).
  - now apply get_column_replace_ne.
  - now apply get_column_app_l.
Qed.

Lemma col_Some (df : DataFrame) (n : string) (c : Column) :
  get_column df n = Some c -> col df n = Ok c.
Proof. unfold col. now intros ->. Qed.

Lemma frame_rows_column (n : nat) (df : DataFrame) (name : string) (c : Column) :
  frame_rows n df -> get_column df name = Some c -> length (cdata c) = n.
Proof.
  unfold frame_rows, get_column. rewrite Forall_forall.
  intros Hall Hfind. apply find_some in Hfind as [Hin _].
  apply Hall. now apply list_elem_of_In.
Qed.

Lemma frame_rowsb_spec (n : nat) (df : DataFrame) :
  frame_rowsb n df = true -> frame_rows n df.
Proof.
  unfold frame_rowsb, frame_rows. rewrite forallb_forall, Forall_forall.
  intros H c Hc. apply Nat.eqb_eq, H. now apply list_elem_of_In.
Qed.

(** ** Doubles *)

Section Rounding_facts.
Import SpecFloat.

Lemma iter_pos_invariant {A} (P : A -> Prop) (f : A -> A) :
  (forall x, P x -> P (f x)) -> forall p x, P x -> P (iter_pos f p x).
Proof.
  intros Hf. induction p as [p IH|p IH|]; intros x Hx; simpl; auto.
Qed.

Lemma shr_1_nonneg (mrs : shr_record) :
  (0 <= shr_m mrs)%Z -> (0 <= shr_m (shr_1 mrs))%Z.
Proof.
  destruct mrs as [m r s]. simpl.
  destruct m as [|[p|p|]|[p|p|]]; simpl; lia.
Qed.

Lemma shr_nonneg (mrs : shr_record) (e n : Z) :
  (0 <= shr_m mrs)%Z -> (0 <= shr_m (fst (shr mrs e n)))%Z.
Proof.
  intros H. unfold shr. destruct n; simpl; auto.
  apply (iter_pos_invariant (fun r => (0 <= shr_m r)%Z)); auto using shr_1_nonneg.
Qed.

Lemma shr_fexp_nonneg (p emx m e : Z) (l : location) :
  (0 <= m)%Z -> (0 <= shr_m (fst (shr_fexp p emx m e l)))%Z.
Proof.
  intros H. unfold shr_fexp. apply shr_nonneg.
  destruct l as [|[]]; exact H.
Qed.

Lemma round_nearest_even_nonneg (m : Z) (l : location) :
  (0 <= m)%Z -> (0 <= round_nearest_even m l)%Z.
Proof.
  intros H. unfold round_nearest_even.
  destruct l as [|[]]; try destruct (Z.even m); lia.
Qed.

Lemma binary_round_aux_not_nan (p emx : Z) (sx : bool) (mx ex : Z) (lx : location) :
  (0 <= mx)%Z -> binary_round_aux p emx sx mx ex lx <> S754_nan.
Proof.
  intros H. unfold binary_round_aux.
  pose proof (shr_fexp_nonneg p emx mx ex lx H) as H1.
  destruct (shr_fexp p emx mx ex lx) as [mrs' e']. simpl in H1.
  pose proof (shr_fexp_nonneg p emx _ e' loc_Exact
                (round_nearest_even_nonneg _ (loc_of_shr_record mrs') H1)) as H2.
  destruct (shr_fexp p emx _ e' loc_Exact) as [mrs'' e'']. simpl in H2.
  destruct (shr_m mrs''); try discriminate; [|lia].
  destruct (Z.leb e'' (emx - p)); discriminate.
Qed.

Lemma binary_round_not_nan (p emx : Z) (sx : bool) (mx : positive) (ex : Z) :
  binary_round p emx sx mx ex <> S754_nan.
Proof.
  unfold binary_round. destruct (shl_align _ _ _) as [mz ez].
  apply binary_round_aux_not_nan. lia.
Qed.

Lemma binary_normalize_not_nan (p emx m e : Z) (sz : bool) :
  binary_normalize p emx m e sz <> S754_nan.
Proof.
  unfold binary_normalize. destruct m; [discriminate| |]; apply binary_round_not_nan.
Qed.

Lemma SFopp_not_nan (s : spec_float) : s <> S754_nan -> SFopp s <> S754_nan.
Proof. destruct s; simpl; congruence. Qed.

Lemma SFldexp_not_nan (s : spec_float) (e : Z) :
  s <> S754_nan -> SFldexp prec emax s e <> S754_nan.
Proof.
  destruct s; simpl; try congruence. intros _. apply binary_round_not_nan.
Qed.

Lemma Prim2SF_SF2Prim_not_nan (s : spec_float) :
  s <> S754_nan -> Prim2SF (SF2Prim s) <> S754_nan.
Proof.
  intros Hs. destruct s as [[]|[]| |sg m e]; try (vm_compute; discriminate);
    [congruence|].
  unfold SF2Prim.
  assert (Prim2SF (Z.ldexp (of_uint63 (Uint63.of_Z (Z.pos m))) e) <> S754_nan) as H.
  { rewrite FloatLemmas.Z_ldexp_spec. apply SFldexp_not_nan.
    rewrite FloatAxioms.of_uint63_spec. apply binary_normalize_not_nan. }
  destruct sg; [|exact H].
  rewrite FloatAxioms.opp_spec. now apply SFopp_not_nan.
Qed.

Lemma SFcompare_refl (s : spec_float) : s <> S754_nan -> SFcompare s s = Some Eq.
Proof.
  destruct s as [[]|[]| |[] m e]; simpl; try congruence; intros _;
    rewrite Z.compare_refl, ?Pos.compare_cont_refl; try reflexivity.
  all: now rewrite Pos.compare_refl.
Qed.

Lemma is_nan_Prim2SF (x : float) : Prim2SF x <> S754_nan -> is_nan x = false.
Proof.
  intros H. unfold is_nan. rewrite FloatAxioms.eqb_spec. unfold SFeqb.
  now rewrite SFcompare_refl.
Qed.

End Rounding_facts.

Lemma zero_is_not_one (x : float) :
  (x =? long_to_double 0)%float = true -> (x =? long_to_double 1)%float = false.
Proof.
  rewrite !FloatAxioms.eqb_spec.
  change (Prim2SF (long_to_double 0)) with (S754_zero false).
  let one := eval vm_compute in (Prim2SF (long_to_double 1)) in
  change (Prim2SF (long_to_double 1)) with one.
  destruct (Prim2SF x) as [s|s| |s m e]; cbv [SFeqb SFcompare];
    try destruct s; congruence.
Qed.

Lemma long_to_double_not_nan (n : Z) : is_nan (long_to_double n) = false.
Proof.
  apply is_nan_Prim2SF, Prim2SF_SF2Prim_not_nan, binary_normalize_not_nan.
Qed.

(** ** compute_service_features *)

Lemma indicator_lookup (d : list value) (i : nat) :
  bool_astype_double (series_eq_str d "Yes") !! i = yes_indicator <$> d !! i.
Proof.
  unfold bool_astype_double, series_eq_str.
  rewrite !list_lookup_fmap. destruct (d !! i) as [v|]; [|reflexivity].
  destruct v; reflexivity.
Qed.

(** C2. On every row, [num_optional_services] is the number of the six
    tracked service columns that read "Yes", as a double between 0 and 6;
    cells that are missing or read anything else add nothing, and the
    call returns. *)
Theorem num_optional_services_counts_yes (df : DataFrame) (n : nat) :
  frame_rows n df ->
  (forall c, c ∈ service_columns -> is_Some (get_column df c)) ->
  exists out,
    compute_service_features df = Ok out /\
    forall i, i < n ->
      exists x,
        cell out "num_optional_services" i = Some (VDouble x) /\
        x = count_to_double (yes_count df i) /\
        yes_count df i <= 6 /\
        (0 <=? x)%float = true /\ (x <=? 6)%float = true.
Proof.
  intros Hrows Hcols.
  assert (Hcol : forall c, c ∈ service_columns ->
             exists s, get_column df c = Some s /\ length (cdata s) = n).
  { intros c Hc. destruct (Hcols c Hc) as [s Hs]. exists s. split; [exact Hs|].
    exact (frame_rows_column n df c s Hrows Hs). }
  destruct (Hcol "online_security") as (s1 & G1 & L1); [repeat constructor|].
  destruct (Hcol "online_backup") as (s2 & G2 & L2); [repeat constructor|].
  destruct (Hcol "device_protection") as (s3 & G3 & L3); [repeat constructor|].
  destruct (Hcol "tech_support") as (s4 & G4 & L4); [repeat constructor|].
  destruct (Hcol "streaming_tv") as (s5 & G5 & L5); [repeat constructor|].
  destruct (Hcol "streaming_movies") as (s6 & G6 & L6); [repeat constructor|].
  eexists. split.
  - unfold compute_service_features, service_columns. cbn [mapM].
    rewrite (col_Some _ _ _ G1), (col_Some _ _ _ G2), (col_Some _ _ _ G3),
      (col_Some _ _ _ G4), (col_Some _ _ _ G5), (col_Some _ _ _ G6).
    reflexivity.
  - intros i Hi.
    unfold cell at 1. rewrite get_column_withColumn_eq. cbn [mbind option_bind cdata].
    destruct (lookup_lt_is_Some_2 (cdata s1) i) as [v1 E1]; [lia|].
    destruct (lookup_lt_is_Some_2 (cdata s2) i) as [v2 E2]; [lia|].
    destruct (lookup_lt_is_Some_2 (cdata s3) i) as [v3 E3]; [lia|].
    destruct (lookup_lt_is_Some_2 (cdata s4) i) as [v4 E4]; [lia|].
    destruct (lookup_lt_is_Some_2 (cdata s5) i) as [v5 E5]; [lia|].
    destruct (lookup_lt_is_Some_2 (cdata s6) i) as [v6 E6]; [lia|].
    rewrite list_lookup_fmap, !lookup_zip_with, list_lookup_fmap, !indicator_lookup.
    rewrite E1, E2, E3, E4, E5, E6. cbn [fmap option_fmap option_map mbind option_bind].
    eexists. split; [reflexivity|].
    unfold yes_count, service_columns. cbn [List.filter]. unfold cell.
    rewrite G1, G2, G3, G4, G5, G6. cbn [mbind option_bind].
    rewrite E1, E2, E3, E4, E5, E6.
    unfold yes_indicator.
    destruct (is_yes (Some v1)), (is_yes (Some v2)), (is_yes (Some v3)),
      (is_yes (Some v4)), (is_yes (Some v5)), (is_yes (Some v6));
      vm_compute; repeat split; lia.
Qed.

(** ** clean_churn_features *)

Lemma get_column_replace (df : DataFrame) (c' : Column) (n : string) :
  get_column (replace_column df c') n =
  (fun c => if named (cname c') c then c' else c) <$> get_column df n.
Proof.
  unfold replace_column. apply get_column_fmap.
  intros c. destruct (named (cname c') c) eqn:E; [|reflexivity].
  symmetry. now apply named_eq.
Qed.

Lemma get_column_withColumn (df : DataFrame) (a n : string) (ty : DataType)
    (d : list value) :
  get_column (withColumn df a ty d) n =
  if String.eqb a n then Some (mk_column a ty [] d) else get_column df n.
Proof.
  destruct (String.eqb a n) eqn:E.
  - apply String.eqb_eq in E as <-. apply get_column_withColumn_eq.
  - apply String.eqb_neq in E. now apply get_column_withColumn_ne.
Qed.

Section Casts_facts.

Variable parse_double : string -> option float.
Variable show_value : value -> string.

Lemma series_fillna_filled (x : float) (c : Column) :
  fillable c = true ->
  series_fillna parse_double show_value x c = Ok (filled parse_double show_value x c).
Proof.
  unfold fillable, filled, series_fillna.
  destruct (ctype c); intros H; try discriminate; reflexivity.
Qed.

Lemma cname_filled (x : float) (c : Column) : cname (filled parse_double show_value x c) = cname c.
Proof. unfold filled, series_fillna. destruct (ctype c); reflexivity. Qed.

Lemma cmeta_filled (x : float) (c : Column) : cmeta (filled parse_double show_value x c) = cmeta c.
Proof. unfold filled, series_fillna. destruct (ctype c); reflexivity. Qed.

Lemma fillna_Some (a : string) (x : float) (df : DataFrame) (c : Column) :
  get_column df a = Some c ->
  fillable c = true ->
  fillna parse_double show_value a x df = Ok (replace_column df (filled parse_double show_value x c)).
Proof.
  intros Hc Hf. unfold fillna. rewrite Hc, (series_fillna_filled x c Hf).
  reflexivity.
Qed.

Lemma astype_Ok (dtypes : list (string * dtype)) (df : DataFrame) :
  Forall (fun kv => is_Some (get_column df (fst kv))) dtypes ->
  astype parse_double show_value dtypes df =
  Ok ((fun c => match dict_get dtypes (cname c) with
                | Some t => series_astype parse_double show_value t c
                | None => c
                end) <$> df).
Proof.
  intros H. unfold astype.
  assert (forallb (fun kv => existsb (named (fst kv)) df) dtypes = true) as ->;
    [|reflexivity].
  apply forallb_forall. intros kv Hin. apply existsb_named.
  rewrite Forall_forall in H. apply H. now apply list_elem_of_In.
Qed.

Lemma get_column_astype (dtypes : list (string * dtype)) (df : DataFrame)
    (n : string) :
  get_column ((fun c => match dict_get dtypes (cname c) with
                        | Some t => series_astype parse_double show_value t c
                        | None => c
                        end) <$> df) n =
  (fun c => match dict_get dtypes n with
            | Some t => series_astype parse_double show_value t c
            | None => c
            end) <$> get_column df n.
Proof.
  rewrite get_column_fmap.
  - destruct (get_column df n) as [c|] eqn:E; [|reflexivity].
    apply get_column_name in E. simpl. now rewrite E.
  - intros c. destruct (dict_get dtypes (cname c)); reflexivity.
Qed.

Lemma withMetadata_Some (df : DataFrame) (a : string) (m : list (string * string))
    (c : Column) :
  get_column df a = Some c ->
  withMetadata df a m = Ok (replace_column df (set_metadata m c)).
Proof. intros H. unfold withMetadata. now rewrite (col_Some _ _ _ H). Qed.

End Casts_facts.

Lemma columns_fmap (f : Column -> Column) (df : DataFrame) :
  (forall c, cname (f c) = cname c) -> columns (f <$> df) = columns df.
Proof.
  intros Hf. unfold columns. rewrite <- list_fmap_compose.
  apply list_fmap_ext. intros _ c _. apply Hf.
Qed.

Lemma columns_replace (df : DataFrame) (c' : Column) :
  columns (replace_column df c') = columns df.
Proof.
  unfold replace_column. apply columns_fmap.
  intros c. destruct (named (cname c') c) eqn:E; [|reflexivity].
  symmetry. now apply named_eq.
Qed.

Lemma columns_withColumn_present (df : DataFrame) (n : string) (ty : DataType)
    (d : list value) :
  is_Some (get_column df n) -> columns (withColumn df n ty d) = columns df.
Proof.
  intros H. apply existsb_named in H. unfold withColumn. rewrite H.
  apply columns_replace.
Qed.

Lemma columns_withColumn_fresh (df : DataFrame) (n : string) (ty : DataType)
    (d : list value) :
  get_column df n = None -> withColumn df n ty d = df ++ [mk_column n ty [] d].
Proof.
  intros H. apply existsb_named_false in H. unfold withColumn. now rewrite H.
Qed.

Lemma get_column_replace_if (df : DataFrame) (c' : Column) (n : string) :
  get_column (replace_column df c') n =
  if String.eqb n (cname c')
  then match get_column df n with Some _ => Some c' | None => None end
  else get_column df n.
Proof.
  rewrite get_column_replace.
  destruct (get_column df n) as [c|] eqn:E.
  - apply get_column_name in E. unfold named. simpl. rewrite E.
    now destruct (String.eqb n (cname c')).
  - now destruct (String.eqb n (cname c')).
Qed.

Section Cleaner_facts.

Variable parse_double : string -> option float.
Variable show_value : value -> string.

Variable df : DataFrame.
Variables senior tenure monthly total key services : Column.

Hypothesis Hsenior : get_column df "senior_citizen" = Some senior.
Hypothesis Htenure : get_column df "tenure" = Some tenure.
Hypothesis Hmonthly : get_column df "monthly_charges" = Some monthly.
Hypothesis Htotal : get_column df "total_charges" = Some total.
Hypothesis Hkey : get_column df primary_key = Some key.
Hypothesis Hservices : get_column df "num_optional_services" = Some services.
Hypothesis Ftenure : fillable tenure = true.
Hypothesis Fmonthly : fillable monthly = true.

Lemma clean_churn_features_columns :
  exists out,
    clean_churn_features parse_double show_value df = Ok out /\
    columns out = columns df /\
    forall n, get_column out n =
              cleaned_lookup parse_double show_value df
                senior tenure monthly total key services n.
Proof.
  pose proof (get_column_name _ _ _ Htenure) as Ntenure.
  pose proof (get_column_name _ _ _ Hmonthly) as Nmonthly.
  pose proof (get_column_name _ _ _ Htotal) as Ntotal.
  pose proof (get_column_name _ _ _ Hkey) as Nkey.
  pose proof (get_column_name _ _ _ Hservices) as Nservices.
  unfold clean_churn_features, pandas_api, to_spark, getitem, setitem.
  rewrite Hsenior. cbn [mbind result_bind].
  set (df1 := withColumn df _ _ _).
  assert (G1 : forall n, get_column df1 n = _) by
    (intros n; unfold df1; apply get_column_withColumn).
  rewrite astype_Ok.
  2:{ repeat constructor; cbn [fst]; rewrite G1; cbn; eauto. }
  cbn [mbind result_bind].
  set (df2 := _ <$> df1).
  assert (G2 : forall n, get_column df2 n = _) by
    (intros n; unfold df2; apply get_column_astype).
  assert (T2 : get_column df2 "tenure" = Some tenure)
    by (rewrite G2, G1; cbn; now rewrite Htenure).
  rewrite (fillna_Some _ _ _ _ _ _ T2 Ftenure). cbn [mbind result_bind].
  set (df3 := replace_column df2 _).
  assert (G3 : forall n, get_column df3 n = _) by
    (intros n; unfold df3; apply get_column_replace_if).
  rewrite cname_filled, Ntenure in G3.
  assert (T3 : get_column df3 "monthly_charges" = Some monthly)
    by (rewrite G3, G2, G1; cbn; now rewrite Hmonthly).
  rewrite (fillna_Some _ _ _ _ _ _ T3 Fmonthly). cbn [mbind result_bind].
  set (df4 := replace_column df3 _).
  assert (G4 : forall n, get_column df4 n = _) by
    (intros n; unfold df4; apply get_column_replace_if).
  rewrite cname_filled, Nmonthly in G4.
  assert (T4 : get_column df4 "total_charges" =
               Some (series_astype parse_double show_value dtype_double total))
    by (rewrite G4, G3, G2, G1; cbn; now rewrite Htotal).
  rewrite (fillna_Some _ _ _ _ _ _ T4 eq_refl). cbn [mbind result_bind].
  set (df5 := replace_column df4 _).
  assert (G5 : forall n, get_column df5 n = _) by
    (intros n; unfold df5; apply get_column_replace_if).
  rewrite cname_filled in G5. cbn [series_astype cname] in G5. rewrite Ntotal in G5.
  assert (T5 : get_column df5 "customer_id" = Some key)
    by (rewrite G5, G4, G3, G2, G1; cbn; change (get_column df "customer_id") with (get_column df primary_key); now rewrite Hkey).
  rewrite (withMetadata_Some _ primary_key _ _ T5). cbn [mbind result_bind].
  set (df6 := replace_column df5 _).
  assert (G6 : forall n, get_column df6 n = _) by
    (intros n; unfold df6; apply get_column_replace_if).
  cbn [set_metadata cname] in G6. rewrite Nkey in G6.
  assert (T6 : get_column df6 "num_optional_services" = Some services)
    by (rewrite G6, G5, G4, G3, G2, G1; cbn; now rewrite Hservices).
  rewrite (withMetadata_Some _ _ _ _ T6). cbn [mbind result_bind].
  set (df7 := replace_column df6 _).
  assert (G7 : forall n, get_column df7 n = _) by
    (intros n; unfold df7; apply get_column_replace_if).
  cbn [set_metadata cname] in G7. rewrite Nservices in G7.
  exists df7. split; [reflexivity|]. split.
  { unfold df7, df6, df5, df4, df3, df2, df1.
    rewrite !columns_replace, columns_fmap, columns_withColumn_present; eauto.
    intros c. destruct (dict_get _ (cname c)); reflexivity. }
  intros n. rewrite G7. unfold cleaned_lookup.
  destruct (String.eqb_spec n "num_optional_services") as [->|N7];
    [now rewrite T6|].
  rewrite G6. unfold primary_key.
  destruct (String.eqb_spec n "customer_id") as [->|N6]; [now rewrite T5|].
  rewrite G5.
  destruct (String.eqb_spec n "total_charges") as [->|N5]; [now rewrite T4|].
  rewrite G4.
  destruct (String.eqb_spec n "monthly_charges") as [->|N4]; [now rewrite T3|].
  rewrite G3.
  destruct (String.eqb_spec n "tenure") as [->|N3]; [now rewrite T2|].
  rewrite G2, G1.
  destruct (String.eqb_spec n "senior_citizen") as [->|N1]; [reflexivity|].
  assert (("senior_citizen" =? n) = false) as -> by (apply String.eqb_neq; congruence).
  cbn [dict_get].
  assert (("total_charges" =? n) = false) as -> by (apply String.eqb_neq; congruence).
  assert (("senior_citizen" =? n) = false) as -> by (apply String.eqb_neq; congruence).
  now destruct (get_column df n).
Qed.

End Cleaner_facts.

(** ** What the cleaner does to each cell *)

Lemma or_zero_not_nan (o : option float) : is_nan (or_zero o) = false.
Proof.
  destruct o as [x|]; [|reflexivity]. simpl.
  destruct (is_nan x) eqn:E; [reflexivity | exact E].
Qed.

Lemma numeric_fillable (c : Column) : numeric c = true -> fillable c = true.
Proof. unfold numeric, fillable. now destruct (ctype c). Qed.

Section Cell_facts.

Variable parse_double : string -> option float.
Variable show_value : value -> string.

Lemma to_double_isnull (v : value) :
  isnull v = true -> or_zero (to_double parse_double show_value v) = 0%float.
Proof.
  destruct v; try discriminate; [reflexivity|].
  unfold to_double. simpl. now intros ->.
Qed.

Lemma or_zero_number (v : value) (x : float) :
  to_double parse_double show_value v = Some x -> is_nan x = false -> or_zero (to_double parse_double show_value v) = x.
Proof. intros -> H. simpl. now rewrite H. Qed.

(** [fillna] on a numeric column. *)
Lemma filled_numeric_lookup (c : Column) (i : nat) (v : value) :
  numeric c = true ->
  well_typed c ->
  cdata c !! i = Some v ->
  cdata (filled parse_double show_value 0 c) !! i =
  Some (VDouble (or_zero (to_double parse_double show_value v))).
Proof.
  intros Hn Hw Hv.
  assert (has_type (ctype c) v = true) as Ht.
  { unfold well_typed in Hw. rewrite Forall_forall in Hw. apply Hw.
    apply list_elem_of_lookup. eauto. }
  unfold numeric in Hn. unfold filled, series_fillna.
  destruct (ctype c); try discriminate; cbn [cdata];
    rewrite list_lookup_fmap, Hv; cbn [fmap option_fmap option_map];
    destruct v; try discriminate; try reflexivity.
  - unfold to_double. cbn. now rewrite long_to_double_not_nan.
  - unfold to_double. cbn. now destruct (is_nan x).
Qed.

(** [astype("double")] followed by [fillna], on any column. *)
Lemma filled_cast_lookup (c : Column) (i : nat) (v : value) :
  cdata c !! i = Some v ->
  cdata (filled parse_double show_value 0
           (series_astype parse_double show_value dtype_double c)) !! i =
  Some (VDouble (or_zero (to_double parse_double show_value v))).
Proof.
  intros Hv. unfold filled, series_fillna. cbn [series_astype ctype spark_type cdata].
  rewrite !list_lookup_fmap, Hv. cbn [fmap option_fmap option_map].
  unfold to_double.
  destruct (cast_value parse_double show_value dtype_double v) eqn:E;
    try (destruct v; cbn in E; try destruct (parse_double _); discriminate).
  - reflexivity.
  - cbn. now destruct (is_nan x).
Qed.

Lemma cleaned_senior_lookup (senior : Column) (i : nat) (v : value) :
  cdata senior !! i = Some v ->
  cdata (cleaned_senior parse_double show_value senior) !! i = Some (remapped parse_double show_value v).
Proof.
  intros Hv. unfold cleaned_senior, series_astype, series_map. cbn [cdata].
  rewrite !list_lookup_fmap, Hv. reflexivity.
Qed.

End Cell_facts.

Lemma clean_columns (parse_double : string -> option float)
    (show_value : value -> string) (df : DataFrame)
    (senior tenure monthly total key services : Column) :
  cleanable df senior tenure monthly total key services ->
  exists out,
    clean_churn_features parse_double show_value df = Ok out /\
    columns out = columns df /\
    forall n, get_column out n =
              cleaned_lookup parse_double show_value df
                senior tenure monthly total key services n.
Proof.
  intros [H1 H2 H3 H4 H5 H6 H7 H8].
  now apply clean_churn_features_columns.
Qed.

(** C4. After cleaning, tenure, monthly_charges and total_charges are
    never missing on any row: each cell is a double that is not NaN, it
    is 0.0 where the original was missing, and it is the numeric coercion
    of the original wherever that coercion is a number. *)
Theorem clean_fills_missing_numbers (parse_double : string -> option float)
    (show_value : value -> string) (df : DataFrame)
    (senior tenure monthly total key services : Column) :
  cleanable df senior tenure monthly total key services ->
  numeric tenure = true -> well_typed tenure ->
  numeric monthly = true -> well_typed monthly ->
  exists out,
    clean_churn_features parse_double show_value df = Ok out /\
    forall name orig,
      (name, orig) ∈ [("tenure", tenure); ("monthly_charges", monthly);
                      ("total_charges", total)] ->
      forall i v, cdata orig !! i = Some v ->
        exists y,
          cell out name i = Some (VDouble y) /\
          is_nan y = false /\
          (isnull v = true -> y = 0%float) /\
          (forall x, to_double parse_double show_value v = Some x ->
                     is_nan x = false -> y = x).
Proof.
  intros Hc Nt Wt Nm Wm.
  destruct (clean_columns parse_double show_value _ _ _ _ _ _ _ Hc)
    as (out & Hout & _ & Hget).
  exists out. split; [exact Hout|].
  intros name orig Hin i v Hv.
  exists (or_zero (to_double parse_double show_value v)).
  split; [|split; [apply or_zero_not_nan|split;
            [apply to_double_isnull | apply or_zero_number]]].
  unfold cell. rewrite Hget.
  rewrite !elem_of_cons, elem_of_nil in Hin.
  destruct Hin as [E|[E|[E|[]]]]; injection E as -> ->; cbn.
  - now apply filled_numeric_lookup.
  - now apply filled_numeric_lookup.
  - now apply filled_cast_lookup.
Qed.

(** C6. Cleaning turns the numeric senior_citizen indicator into text:
    1 becomes "Yes", 0 becomes "No", and the column has string type. *)
Theorem clean_remaps_senior_citizen (parse_double : string -> option float)
    (show_value : value -> string) (df : DataFrame)
    (senior tenure monthly total key services : Column) :
  cleanable df senior tenure monthly total key services ->
  exists out sc,
    clean_churn_features parse_double show_value df = Ok out /\
    get_column out "senior_citizen" = Some sc /\
    ctype sc = StringType /\
    forall i v, cdata senior !! i = Some v ->
      (reads_as 1 v = true -> cdata sc !! i = Some (VString "Yes")) /\
      (reads_as 0 v = true -> cdata sc !! i = Some (VString "No")).
Proof.
  intros Hc.
  destruct (clean_columns parse_double show_value _ _ _ _ _ _ _ Hc)
    as (out & Hout & _ & Hget).
  exists out, (cleaned_senior parse_double show_value senior).
  split; [exact Hout|]. split; [now rewrite Hget|]. split; [reflexivity|].
  intros i v Hv. rewrite (cleaned_senior_lookup _ _ _ _ _ Hv). unfold remapped.
  split; intros Hr.
  - destruct v; try discriminate; cbn in Hr |- *; now rewrite Hr.
  - destruct v; try discriminate; cbn in Hr |- *.
    + apply Z.eqb_eq in Hr as ->. reflexivity.
    + now rewrite (zero_is_not_one x Hr), Hr.
Qed.

(** C9. A senior_citizen cell that is missing, or a number other than 0
    and 1, is missing after cleaning: the remap yields NULL, no later
    step fills that column, and the call returns. *)
Theorem clean_unmapped_senior_is_null (parse_double : string -> option float)
    (show_value : value -> string) (df : DataFrame)
    (senior tenure monthly total key services : Column) :
  cleanable df senior tenure monthly total key services ->
  exists out,
    clean_churn_features parse_double show_value df = Ok out /\
    forall i v, cdata senior !! i = Some v ->
      number_or_null v = true ->
      reads_as 0 v = false -> reads_as 1 v = false ->
      cell out "senior_citizen" i = Some VNull.
Proof.
  intros Hc.
  destruct (clean_columns parse_double show_value _ _ _ _ _ _ _ Hc)
    as (out & Hout & _ & Hget).
  exists out. split; [exact Hout|].
  intros i v Hv Hn H0 H1. unfold cell. rewrite Hget.
  change (cdata (cleaned_senior parse_double show_value senior) !! i = Some VNull).
  rewrite (cleaned_senior_lookup _ _ _ _ _ Hv). unfold remapped.
  destruct v; try discriminate; cbn in H0, H1 |- *; try reflexivity;
    now rewrite H0, H1.
Qed.

(** ** Frame conditions *)

Lemma compute_service_features_Ok (df : DataFrame) :
  (forall c, c ∈ service_columns -> is_Some (get_column df c)) ->
  exists r,
    compute_service_features df =
    Ok (withColumn df "num_optional_services" DoubleType r).
Proof.
  intros Hcols.
  destruct (Hcols "online_security") as (s1 & G1); [repeat constructor|].
  destruct (Hcols "online_backup") as (s2 & G2); [repeat constructor|].
  destruct (Hcols "device_protection") as (s3 & G3); [repeat constructor|].
  destruct (Hcols "tech_support") as (s4 & G4); [repeat constructor|].
  destruct (Hcols "streaming_tv") as (s5 & G5); [repeat constructor|].
  destruct (Hcols "streaming_movies") as (s6 & G6); [repeat constructor|].
  eexists. unfold compute_service_features, service_columns. cbn [mapM].
  rewrite (col_Some _ _ _ G1), (col_Some _ _ _ G2), (col_Some _ _ _ G3),
    (col_Some _ _ _ G4), (col_Some _ _ _ G5), (col_Some _ _ _ G6).
  reflexivity.
Qed.

(** C10. [compute_service_features] leaves every column other than
    num_optional_services as it was, and on a frame without such a column
    it appends that one column; [clean_churn_features] keeps the list of
    columns, and keeps the name, type and cells of every column other
    than senior_citizen, total_charges, tenure and monthly_charges: of
    those it changes only the metadata of the primary key and of
    num_optional_services. *)
Theorem transforms_frame (parse_double : string -> option float)
    (show_value : value -> string) (inputDF df : DataFrame)
    (senior tenure monthly total key services : Column) :
  (forall c, c ∈ service_columns -> is_Some (get_column inputDF c)) ->
  cleanable df senior tenure monthly total key services ->
  (exists out added,
     compute_service_features inputDF = Ok out /\
     cname added = "num_optional_services" /\
     (forall n, n <> "num_optional_services" ->
                get_column out n = get_column inputDF n) /\
     (get_column inputDF "num_optional_services" = None ->
      out = inputDF ++ [added])) /\
  (exists out,
     clean_churn_features parse_double show_value df = Ok out /\
     columns out = columns df /\
     forall n c, untouched_by_cleaning n -> get_column df n = Some c ->
       exists c',
         get_column out n = Some c' /\
         cname c' = cname c /\ ctype c' = ctype c /\ cdata c' = cdata c /\
         (n <> primary_key -> n <> "num_optional_services" -> c' = c)).
Proof.
  intros Hcols Hc. split.
  - destruct (compute_service_features_Ok inputDF Hcols) as [r Hr].
    exists (withColumn inputDF "num_optional_services" DoubleType r),
      (mk_column "num_optional_services" DoubleType [] r).
    split; [exact Hr|]. split; [reflexivity|]. split.
    + intros n Hn. apply get_column_withColumn_ne. congruence.
    + apply columns_withColumn_fresh.
  - destruct (clean_columns parse_double show_value _ _ _ _ _ _ _ Hc)
      as (out & Hout & Hnames & Hget).
    exists out. split; [exact Hout|]. split; [exact Hnames|].
    intros n c Hn Hdf. rewrite Hget. unfold cleaned_lookup.
    unfold untouched_by_cleaning in Hn.
    rewrite !not_elem_of_cons in Hn. destruct Hn as (N1 & N2 & N3 & N4 & _).
    destruct Hc as [_ _ _ _ Hkey Hservices _ _].
    destruct (String.eqb_spec n "num_optional_services") as [->|N5].
    { rewrite Hservices in Hdf. injection Hdf as ->.
      eexists. split; [reflexivity|]. cbn. repeat split; congruence. }
    destruct (String.eqb_spec n "customer_id") as [->|N6].
    { change (get_column df primary_key = Some c) in Hdf.
      rewrite Hkey in Hdf. injection Hdf as ->.
      eexists. split; [reflexivity|]. cbn. repeat split.
      unfold primary_key. congruence. }
    apply String.eqb_neq in N1, N2, N3, N4. rewrite N1, N2, N3, N4.
    exists c. repeat split. exact Hdf.
Qed.

(** ** avg_price_increase *)

Lemma positive_is_not_zero (x : float) :
  (0 <? x)%float = true -> (x =? 0)%float = false.
Proof.
  rewrite FloatAxioms.ltb_spec, FloatAxioms.eqb_spec.
  change (Prim2SF 0) with (S754_zero false).
  destruct (Prim2SF x) as [s|s| |s m e]; cbv [SFltb SFeqb SFcompare];
    try destruct s; congruence.
Qed.



(** ** The split column *)

Lemma split_of_rule (r : float) : split_of (VDouble r) = VString (split_rule r).
Proof.
  unfold split_of, split_rule. cbn [case_when lt_double].
  destruct (r <? train_ratio)%float; [reflexivity|].
  now destruct (r <? train_ratio + val_ratio)%float.
Qed.

Lemma split_rule_label (r : float) :
  split_rule r ∈ ["train"; "validate"; "test"].
Proof.
  unfold split_rule.
  destruct (r <? train_ratio)%float; [repeat constructor|].
  destruct (r <? train_ratio + val_ratio)%float; repeat constructor.
Qed.

Lemma length_draws (G : Generator) (n : nat) (s : gen_state G) :
  length (draws G s n) = n.
Proof.
  revert s. induction n as [|n IH]; intros s; [reflexivity|].
  cbn [draws]. destruct (gen_nextDouble G s) as [x s']. cbn. now rewrite IH.
Qed.

Lemma length_concat_imap {A} (f : nat -> nat -> list A) (layout : list nat) :
  (forall p n, length (f p n) = n) ->
  length (concat (imap f layout)) = sum_list layout.
Proof.
  revert f. induction layout as [|n layout IH]; intros f Hf; [reflexivity|].
  cbn [imap concat sum_list sum_list_with id]. rewrite length_app, Hf, IH; [reflexivity|].
  intros p m. apply Hf.
Qed.

Lemma Forall_concat_imap {A} (P : A -> Prop) (f : nat -> nat -> list A)
    (layout : list nat) :
  (forall p n, Forall P (f p n)) -> Forall P (concat (imap f layout)).
Proof.
  revert f. induction layout as [|n layout IH]; intros f Hf; [constructor|].
  cbn [imap concat]. apply Forall_app. split; [apply Hf|].
  apply IH. intros p m. apply Hf.
Qed.

Lemma length_rand (G : Generator) (seed : Z) (layout : list nat) :
  length (rand G seed layout) = sum_list layout.
Proof.
  unfold rand. apply length_concat_imap.
  intros p n. now rewrite length_fmap, length_draws.
Qed.

Lemma rand_doubles (G : Generator) (seed : Z) (layout : list nat) :
  Forall (fun v => exists r, v = VDouble r) (rand G seed layout).
Proof.
  unfold rand. apply Forall_concat_imap.
  intros p n. apply Forall_fmap, Forall_true. intros r. now exists r.
Qed.

(** The frame the label cell writes, column by column. *)
Lemma label_frame_Ok (G : Generator) (layout : list nat) (df : DataFrame)
    (key ts churn : Column) :
  get_column df primary_key = Some key ->
  get_column df timestamp_col = Some ts ->
  get_column df label_col = Some churn ->
  label_frame G layout df =
  Ok [key; ts; churn;
      mk_column "split" StringType [] (split_of <$> rand G 42 layout)].
Proof.
  intros Hk Ht Hc.
  pose proof (get_column_name _ _ _ Hk) as Nk.
  pose proof (get_column_name _ _ _ Ht) as Nt.
  pose proof (get_column_name _ _ _ Hc) as Nc.
  unfold label_frame. cbn [select].
  rewrite (col_Some _ _ _ Hk), (col_Some _ _ _ Ht), (col_Some _ _ _ Hc).
  cbn [mbind result_bind].
  destruct key as [kn kt km kd], ts as [tn tt tm td], churn as [cn ct cm cd].
  cbn in Nk, Nt, Nc. subst kn tn cn. reflexivity.
Qed.

(** C3. The split column gives every row exactly one cell, the label the
    threshold rule assigns to that row's draw: "train" below
    [train_ratio], else "validate" below [train_ratio + val_ratio], else
    "test". *)
Theorem split_assigns_one_label (G : Generator) (layout : list nat)
    (df : DataFrame) (key ts churn : Column) :
  get_column df primary_key = Some key ->
  get_column df timestamp_col = Some ts ->
  get_column df label_col = Some churn ->
  exists out labels,
    label_frame G layout df = Ok out /\
    get_column out "split" = Some labels /\
    length (cdata labels) = sum_list layout /\
    forall i, i < sum_list layout ->
      exists r,
        rand G 42 layout !! i = Some (VDouble r) /\
        cdata labels !! i = Some (VString (split_rule r)) /\
        split_rule r =
          (if (r <? 0.7)%float then "train"
           else if (r <? 0.7 + 0.2)%float then "validate" else "test") /\
        split_rule r ∈ ["train"; "validate"; "test"].
Proof.
  intros Hk Ht Hc.
  pose proof (get_column_name _ _ _ Hk) as Nk.
  pose proof (get_column_name _ _ _ Ht) as Nt.
  pose proof (get_column_name _ _ _ Hc) as Nc.
  eexists. exists (mk_column "split" StringType [] (split_of <$> rand G 42 layout)).
  split; [exact (label_frame_Ok G layout df key ts churn Hk Ht Hc)|].
  split.
  { destruct key as [kn kt km kd], ts as [tn tt tm td], churn as [cn ct cm cd].
    cbn in Nk, Nt, Nc. subst kn tn cn. reflexivity. }
  cbn [cdata]. split; [now rewrite length_fmap, length_rand|].
  intros i Hi.
  destruct (lookup_lt_is_Some_2 (rand G 42 layout) i) as [v Hv];
    [now rewrite length_rand|].
  pose proof (rand_doubles G 42 layout) as Hd.
  rewrite Forall_forall in Hd.
  destruct (Hd v) as [r ->]; [apply list_elem_of_lookup; eauto|].
  exists r. split; [exact Hv|].
  rewrite list_lookup_fmap, Hv. cbn [fmap option_fmap option_map].
  rewrite split_of_rule. split; [reflexivity|].
  split; [reflexivity | apply split_rule_label].
Qed.

(** ** What the split depends on *)

Lemma draws_lookup_prefix (G : Generator) (k n m : nat) (s : gen_state G) :
  k < n -> k < m -> draws G s n !! k = draws G s m !! k.
Proof.
  revert n m s. induction k as [|k IH]; intros [|n] [|m] s Hn Hm; try lia;
    cbn [draws]; destruct (gen_nextDouble G s) as [x s']; [reflexivity|].
  cbn. apply IH; lia.
Qed.

Lemma concat_imap_lookup {A} (f : nat -> nat -> list A) (layout : list nat)
    (p n k : nat) :
  (forall q m, length (f q m) = m) ->
  layout !! p = Some n -> k < n ->
  concat (imap f layout) !! (sum_list (take p layout) + k) = f p n !! k.
Proof.
  revert f p. induction layout as [|m layout IH]; intros f p Hf Hp Hk;
    [discriminate|].
  destruct p as [|p]; cbn [imap concat take sum_list sum_list_with id].
  - injection Hp as ->. apply lookup_app_l. now rewrite Hf.
  - cbn in Hp. rewrite lookup_app_r by (rewrite Hf; lia).
    rewrite Hf. replace (m + sum_list (take p layout) + k - m)
      with (sum_list (take p layout) + k) by lia.
    apply (IH (fun q => f (S q))); auto.
Qed.

(** The draw of a row is that of its place: the [k]-th draw of the
    generator seeded for its partition. *)
Lemma rand_lookup (G : Generator) (seed : Z) (layout : list nat) (p n k : nat) :
  layout !! p = Some n -> k < n ->
  rand G seed layout !! (sum_list (take p layout) + k) =
  VDouble <$> draw G seed p k.
Proof.
  intros Hp Hk. unfold rand, draw.
  rewrite (concat_imap_lookup _ layout p n k); auto.
  - rewrite list_lookup_fmap. f_equal. apply draws_lookup_prefix; lia.
  - intros q m. now rewrite length_fmap, length_draws.
Qed.

(** C1, as the code has it. The split column is fixed by the seed and the
    layout alone: the row at place [k] of partition [p] is labelled by
    the threshold rule on the [k]-th draw of the generator seeded with
    [42 + p], whatever the row holds; so two runs on the same input in
    the same layout give every primary key the same label. *)
Theorem split_determined_by_layout (G : Generator) (layout : list nat)
    (df df' : DataFrame) (key ts churn key' ts' churn' : Column) :
  get_column df primary_key = Some key ->
  get_column df timestamp_col = Some ts ->
  get_column df label_col = Some churn ->
  get_column df' primary_key = Some key' ->
  get_column df' timestamp_col = Some ts' ->
  get_column df' label_col = Some churn' ->
  exists out out',
    label_frame G layout df = Ok out /\
    label_frame G layout df' = Ok out' /\
    get_column out "split" = get_column out' "split" /\
    (forall p n k, layout !! p = Some n -> k < n ->
       cell out "split" (sum_list (take p layout) + k) =
       (fun r => VString (split_rule r)) <$> draw G 42 p k) /\
    (df = df' -> forall k, split_label out k = split_label out' k).
Proof.
  intros Hk Ht Hc Hk' Ht' Hc'.
  pose proof (label_frame_Ok G layout df key ts churn Hk Ht Hc) as E.
  pose proof (label_frame_Ok G layout df' key' ts' churn' Hk' Ht' Hc') as E'.
  pose proof (get_column_name _ _ _ Hk) as Nk.
  pose proof (get_column_name _ _ _ Ht) as Nt.
  pose proof (get_column_name _ _ _ Hc) as Nc.
  pose proof (get_column_name _ _ _ Hk') as Nk'.
  pose proof (get_column_name _ _ _ Ht') as Nt'.
  pose proof (get_column_name _ _ _ Hc') as Nc'.
  eexists. eexists. split; [exact E|]. split; [exact E'|].
  assert (forall a b c : Column,
            cname a = primary_key -> cname b = timestamp_col -> cname c = label_col ->
            get_column [a; b; c; mk_column "split" StringType []
                                   (split_of <$> rand G 42 layout)] "split" =
            Some (mk_column "split" StringType [] (split_of <$> rand G 42 layout)))
    as Hsplit.
  { intros [an ? ? ?] [bn ? ? ?] [cn ? ? ?]; cbn; intros -> -> ->. reflexivity. }
  split; [now rewrite !Hsplit|]. split.
  - intros p n k Hp Hn. unfold cell. rewrite Hsplit by assumption.
    cbn [mbind option_bind cdata].
    rewrite list_lookup_fmap, (rand_lookup G 42 layout p n k Hp Hn).
    destruct (draw G 42 p k) as [r|]; [|reflexivity].
    cbn [fmap option_fmap option_map]. now rewrite split_of_rule.
  - intros <- k. rewrite Hk in Hk'. rewrite Ht in Ht'. rewrite Hc in Hc'.
    now injection Hk' as <-; injection Ht' as <-; injection Hc' as <-.
Qed.

(** Whenever the first two draws of the first partition fall under
    different labels, swapping two rows swaps their labels. *)
Lemma position_decides_split (G : Generator) (x y : float)
    (s1 s2 : gen_state G) :
  gen_nextDouble G (gen_seed G 42) = (x, s1) ->
  gen_nextDouble G s1 = (y, s2) ->
  split_rule x <> split_rule y ->
  ~ split_by_row_identity G.
Proof.
  intros Hx Hy Hne Hclaim.
  assert (rand G 42 [2] = [VDouble x; VDouble y]) as Hrand.
  { unfold rand. cbn [imap concat draws Z.of_nat].
    change (42 + Z.of_nat 0)%Z with 42%Z. rewrite Hx, Hy. reflexivity. }
  assert (forall a b, label_frame G [2] (two_customers a b) =
            Ok [mk_column primary_key StringType [] [VString a; VString b];
                mk_column timestamp_col TimestampType [] [VTimestamp 0; VTimestamp 0];
                mk_column label_col StringType [] [VString "No"; VString "No"];
                mk_column "split" StringType []
                  [VString (split_rule x); VString (split_rule y)]]) as Hrun.
  { intros a b.
    rewrite (label_frame_Ok G [2] (two_customers a b) _ _ _ eq_refl eq_refl eq_refl).
    rewrite Hrand. cbn [fmap list_fmap]. now rewrite !split_of_rule. }
  specialize (Hclaim (two_customers "A" "B") (two_customers "B" "A") [2] [2] _ _
                eq_refl (perm_swap _ _ _) eq_refl eq_refl (Hrun "A" "B") (Hrun "B" "A")
                "A").
  cbn in Hclaim. congruence.
Qed.

(** C1 as claimed fails: under [stepping_generator] customer "B" of
    [two_customers "A" "B"] is labelled "test" when the two rows share a
    partition, "train" when each row has its own partition, and "train"
    when the two rows arrive in the other order; so the label is not a
    function of the seed and the row alone. *)
Lemma split_depends_on_position :
  (exists out out1 out2,
     label_frame stepping_generator [2] (two_customers "A" "B") = Ok out /\
     label_frame stepping_generator [1; 1] (two_customers "A" "B") = Ok out1 /\
     label_frame stepping_generator [2] (two_customers "B" "A") = Ok out2 /\
     split_label out "B" = Some (VString "test") /\
     split_label out1 "B" = Some (VString "train") /\
     split_label out2 "B" = Some (VString "train")) /\
  ~ (forall G, split_by_row_identity G).
Proof.
  split.
  - do 3 eexists. repeat split; try reflexivity.
  - intros H.
    apply (position_decides_split stepping_generator 0.5 0.95 44%Z 46%Z);
      [reflexivity | reflexivity | vm_compute; discriminate | apply H].
Qed.

(** ** The label table in the catalog *)

Lemma drop_removes (df : DataFrame) (n : string) : n ∉ columns (drop df n).
Proof.
  unfold columns, drop. rewrite list_elem_of_In, in_map_iff.
  intros (c & Hn & Hin). apply filter_In in Hin as [_ Hin].
  apply negb_true_iff, named_neq in Hin. congruence.
Qed.

Lemma run_bind_Ok {A B} (m : Run A) (f : A -> Run B) (ws ws' : Workspace) (a : A) :
  m ws = (ws', Ok a) -> (m ≫= f) ws = f a ws'.
Proof. intros H. unfold mbind, run_bind. now rewrite H. Qed.

Lemma saveAsTable_fresh (name : string) (df : DataFrame) (ws : Workspace) :
  uc_tables ws !! name = None ->
  saveAsTable name df ws =
  (set_tables ws (<[name := mk_table df [] []]> (uc_tables ws)), Ok tt).
Proof. intros H. unfold saveAsTable. now rewrite H. Qed.

Lemma set_not_null_Ok (table column : string) (ws : Workspace) (t : Table)
    (c : Column) :
  uc_tables ws !! table = Some t ->
  get_column (tbl_frame t) column = Some c ->
  existsb is_sql_null (cdata c) = false ->
  spark_sql (AlterColumnSetNotNull table column) ws =
  (set_tables ws
     (<[table := mk_table (tbl_frame t) (column :: tbl_not_null t) (tbl_constraints t)]>
        (uc_tables ws)),
   Ok tt).
Proof. intros Ht Hc Hn. unfold spark_sql. now rewrite Ht, Hc, Hn. Qed.

Lemma add_primary_key_Ok (table name : string) (cols : list string)
    (ws : Workspace) (t : Table) :
  uc_tables ws !! table = Some t ->
  contains (fst <$> tbl_constraints t) name = false ->
  forallb (contains (tbl_not_null t)) cols = true ->
  spark_sql (AddPrimaryKey table name cols) ws =
  (set_tables ws
     (<[table := mk_table (tbl_frame t) (tbl_not_null t)
                   ((name, cols) :: tbl_constraints t)]> (uc_tables ws)),
   Ok tt).
Proof. intros Ht Hc Hn. unfold spark_sql. now rewrite Ht, Hc, Hn. Qed.

(** C7. The label cell and the constraint cell leave in the catalog a
    label table with exactly the columns primary key, timestamp, churn
    and split (no random column), both key columns NOT NULL, and one
    primary-key constraint over the two; the frame kept for the feature
    store has no churn column. *)
Theorem label_table_schema (catalog db advanced_label_table_name : string)
    (G : Generator) (layout : list nat) (churn_features_n_predsDF : DataFrame)
    (key ts churn : Column) (ws : Workspace) :
  get_column churn_features_n_predsDF primary_key = Some key ->
  get_column churn_features_n_predsDF timestamp_col = Some ts ->
  get_column churn_features_n_predsDF label_col = Some churn ->
  existsb is_sql_null (cdata key) = false ->
  existsb is_sql_null (cdata ts) = false ->
  uc_tables ws !! qualified catalog db advanced_label_table_name = None ->
  exists ws' t,
    label_cells catalog db advanced_label_table_name G layout
      churn_features_n_predsDF ws =
      (ws', Ok (drop churn_features_n_predsDF label_col)) /\
    uc_tables ws' !! qualified catalog db advanced_label_table_name = Some t /\
    columns (tbl_frame t) = [primary_key; timestamp_col; label_col; "split"] /\
    ("random" ∉ columns (tbl_frame t)) /\
    primary_key ∈ tbl_not_null t /\
    timestamp_col ∈ tbl_not_null t /\
    tbl_constraints t =
      [((advanced_label_table_name ++ "_pk")%string, [primary_key; timestamp_col])] /\
    label_col ∉ columns (drop churn_features_n_predsDF label_col).
Proof.
  intros Hk Ht Hc Nk Nt Hfresh.
  pose proof (get_column_name _ _ _ Hk) as Ek.
  pose proof (get_column_name _ _ _ Ht) as Et.
  pose proof (get_column_name _ _ _ Hc) as Ec.
  set (table := qualified catalog db advanced_label_table_name) in *.
  set (labels := [key; ts; churn;
                  mk_column "split" StringType [] (split_of <$> rand G 42 layout)]).
  set (t0 := mk_table labels [] []).
  set (t1 := mk_table labels [primary_key] []).
  set (t2 := mk_table labels [timestamp_col; primary_key] []).
  set (t3 := mk_table labels [timestamp_col; primary_key]
               [((advanced_label_table_name ++ "_pk")%string,
                 [primary_key; timestamp_col])]).
  assert (Gk : get_column labels primary_key = Some key).
  { unfold labels, get_column, named. cbn [find]. rewrite Ek.
    now rewrite String.eqb_refl. }
  assert (Gt : get_column labels timestamp_col = Some ts).
  { unfold labels, get_column, named. cbn [find]. rewrite Ek, Et. reflexivity. }
  set (ws0 := set_tables ws (<[table := t0]> (uc_tables ws))).
  set (ws1 := set_tables ws0 (<[table := t1]> (uc_tables ws0))).
  set (ws2 := set_tables ws1 (<[table := t2]> (uc_tables ws1))).
  set (ws3 := set_tables ws2 (<[table := t3]> (uc_tables ws2))).
  assert (L0 : uc_tables ws0 !! table = Some t0) by apply lookup_insert_eq.
  assert (L1 : uc_tables ws1 !! table = Some t1) by apply lookup_insert_eq.
  assert (L2 : uc_tables ws2 !! table = Some t2) by apply lookup_insert_eq.
  assert (L3 : uc_tables ws3 !! table = Some t3) by apply lookup_insert_eq.
  exists ws3, t3. split.
  - unfold label_cells, label_cell, constraints_cell. fold table.
    unfold lift at 1.
    rewrite (label_frame_Ok G layout _ key ts churn Hk Ht Hc). fold labels.
    rewrite (run_bind_Ok _ _ ws ws0 (drop churn_features_n_predsDF label_col)).
    2:{ rewrite (run_bind_Ok _ _ ws ws labels) by reflexivity.
        now rewrite (run_bind_Ok _ _ ws ws0 tt)
          by exact (saveAsTable_fresh table labels ws Hfresh). }
    rewrite (run_bind_Ok _ _ ws0 ws3 tt); [reflexivity|].
    rewrite (run_bind_Ok _ _ ws0 ws1 tt)
      by exact (set_not_null_Ok table primary_key ws0 t0 key L0 Gk Nk).
    rewrite (run_bind_Ok _ _ ws1 ws2 tt)
      by exact (set_not_null_Ok table timestamp_col ws1 t1 ts L1 Gt Nt).
    apply (add_primary_key_Ok table _ _ ws2 t2 L2); reflexivity.
  - split; [exact L3|].
    cbn [t3 tbl_frame tbl_not_null tbl_constraints].
    assert (columns labels = [primary_key; timestamp_col; label_col; "split"]) as ->.
    { unfold labels, columns. cbn [fmap list_fmap]. now rewrite Ek, Et, Ec. }
    split; [reflexivity|]. split.
    { rewrite !not_elem_of_cons. repeat split; try discriminate.
      apply not_elem_of_nil. }
    split; [repeat constructor|]. split; [repeat constructor|].
    split; [reflexivity|]. apply drop_removes.
Qed.

(** ** The pre-drop cells *)

Section Pre_drop_facts.

Variables catalog db : string.
Variable online_missing : exn.
Hypothesis online_missing_caught : isinstance online_missing Exception = true.

Let table : string := qualified catalog db feature_table_name.
Let online : string := (table ++ "_online_table")%string.

Lemma drop_online_table_absent (ws : Workspace) :
  online ∉ online_tables ws ->
  drop_online_table_cell catalog db online_missing ws =
  (mk_workspace (uc_tables ws) (online_tables ws)
     (stdout ws ++ [repr online_missing]), Ok tt).
Proof.
  intros Habs. apply (bool_decide_eq_false_2 _) in Habs.
  unfold drop_online_table_cell, try_except, mbind, run_bind, online_tables_get.
  fold table. fold online. rewrite Habs, online_missing_caught. reflexivity.
Qed.

Lemma drop_online_table_present (ws : Workspace) :
  online ∈ online_tables ws ->
  drop_online_table_cell catalog db online_missing ws =
  (mk_workspace (uc_tables ws) (online_tables ws ∖ {[online]})
     (stdout ws ++ [("Dropping online feature table: " ++ online)%string]), Ok tt).
Proof.
  intros Hin. apply (bool_decide_eq_true_2 _) in Hin.
  unfold drop_online_table_cell, try_except, mbind, run_bind, online_tables_get,
    online_tables_delete.
  fold table. fold online. rewrite Hin. cbn [online_tables]. rewrite Hin.
  reflexivity.
Qed.

Lemma drop_feature_table_absent (ws : Workspace) :
  uc_tables ws !! table = None ->
  drop_feature_table_cell catalog db ws =
  (mk_workspace (uc_tables ws) (online_tables ws)
     (stdout ws ++ [("Feature Table " ++ table ++ " doesn't exist")%string]), Ok tt).
Proof.
  intros Habs.
  unfold drop_feature_table_cell, try_except, mbind, run_bind, fe_drop_table.
  fold table. rewrite Habs. reflexivity.
Qed.

Lemma drop_feature_table_present (ws : Workspace) (t : Table) :
  uc_tables ws !! table = Some t ->
  drop_feature_table_cell catalog db ws =
  (mk_workspace (delete table (delete table (uc_tables ws))) (online_tables ws)
     (stdout ws ++ [("Dropping Feature Table " ++ table)%string]), Ok tt).
Proof.
  intros Hin.
  unfold drop_feature_table_cell, try_except, mbind, run_bind, fe_drop_table.
  fold table. rewrite Hin. reflexivity.
Qed.

(** Both cells return in every state of the workspace, and keep what was
    already printed. *)
Lemma drop_online_table_returns (ws : Workspace) :
  exists ws',
    drop_online_table_cell catalog db online_missing ws = (ws', Ok tt) /\
    uc_tables ws' = uc_tables ws /\
    (exists line, stdout ws' = stdout ws ++ [line]) /\
    (online ∉ online_tables ws -> stdout ws' = stdout ws ++ [repr online_missing]).
Proof.
  destruct (decide (online ∈ online_tables ws)) as [Hin|Habs].
  - eexists. split; [exact (drop_online_table_present ws Hin)|].
    cbn. repeat split; eauto. intros; contradiction.
  - eexists. split; [exact (drop_online_table_absent ws Habs)|].
    cbn. repeat split; eauto.
Qed.

Lemma drop_feature_table_returns (ws : Workspace) :
  exists ws',
    drop_feature_table_cell catalog db ws = (ws', Ok tt) /\
    (exists line, stdout ws' = stdout ws ++ [line]) /\
    (uc_tables ws !! table = None ->
     stdout ws' =
     stdout ws ++ [("Feature Table " ++ table ++ " doesn't exist")%string]).
Proof.
  destruct (uc_tables ws !! table) as [t|] eqn:E.
  - eexists. split; [exact (drop_feature_table_present ws t E)|].
    cbn. split; eauto. discriminate.
  - eexists. split; [exact (drop_feature_table_absent ws E)|].
    cbn. split; eauto.
Qed.

End Pre_drop_facts.

(** C8. When the online table or the feature table does not exist, the
    two pre-drop cells still run to their end: the failed drop is caught
    and reported on standard output, and nothing is raised. *)
Theorem pre_drop_tolerates_absence (catalog db : string) (online_missing : exn)
    (ws : Workspace) :
  isinstance online_missing Exception = true ->
  exists ws',
    pre_drop_cells catalog db online_missing ws = (ws', Ok tt) /\
    ((qualified catalog db feature_table_name ++ "_online_table")%string
       ∉ online_tables ws ->
     repr online_missing ∈ stdout ws') /\
    (uc_tables ws !! qualified catalog db feature_table_name = None ->
     ("Feature Table " ++ qualified catalog db feature_table_name
        ++ " doesn't exist")%string ∈ stdout ws').
Proof.
  intros Hexc.
  destruct (drop_online_table_returns catalog db online_missing Hexc ws)
    as (ws1 & R1 & T1 & _ & A1).
  destruct (drop_feature_table_returns catalog db ws1) as (ws2 & R2 & [line P2] & A2).
  exists ws2. split.
  - unfold pre_drop_cells. now rewrite (run_bind_Ok _ _ ws ws1 tt R1).
  - split.
    + intros Habs. rewrite P2, (A1 Habs), !elem_of_app. left. right.
      repeat constructor.
    + intros Habs. rewrite T1 in A2. rewrite (A2 Habs), elem_of_app. right.
      repeat constructor.
Qed.

(** ** From the bronze table to the label cell *)

(** X10. The frame the label cell receives: the primary key (tagged)
    and the churn column of the bronze table, and a timestamp column
    holding the run's timestamp on every row. *)
Lemma churn_features_n_preds_columns (parse_double : string -> option float)
    (show_value : value -> string) (this_time : float) (telcoDF : DataFrame)
    (senior tenure monthly total key churn : Column) :
  (forall c, c ∈ service_columns -> is_Some (get_column telcoDF c)) ->
  get_column telcoDF "senior_citizen" = Some senior ->
  get_column telcoDF "tenure" = Some tenure ->
  get_column telcoDF "monthly_charges" = Some monthly ->
  get_column telcoDF "total_charges" = Some total ->
  get_column telcoDF primary_key = Some key ->
  get_column telcoDF label_col = Some churn ->
  fillable tenure = true ->
  fillable monthly = true ->
  exists out ts,
    churn_features_n_preds parse_double show_value this_time telcoDF = Ok out /\
    get_column out primary_key =
      Some (set_metadata [("spark.contentAnnotation.semanticType", "native")] key) /\
    get_column out timestamp_col = Some ts /\
    Forall (fun v => v = double_to_timestamp this_time) (cdata ts) /\
    get_column out label_col = Some churn.
Proof.
  intros Hcols Hs Ht Hm Htot Hk Hc Ft Fm.
  destruct (compute_service_features_Ok telcoDF Hcols) as [r Hr].
  set (services := withColumn telcoDF "num_optional_services" DoubleType r) in Hr.
  assert (cleanable services senior tenure monthly total key
            (mk_column "num_optional_services" DoubleType [] r)) as Hclean.
  { constructor; try assumption; unfold services;
      rewrite get_column_withColumn; cbn;
      first [assumption | exact Hk | reflexivity]. }
  destruct (clean_columns parse_double show_value _ _ _ _ _ _ _ Hclean)
    as (cleaned & Hcleaned & _ & Hget).
  unfold churn_features_n_preds. rewrite Hr. cbn [mbind result_bind].
  rewrite Hcleaned. cbn [mbind result_bind].
  eexists. eexists. split; [reflexivity|].
  rewrite !get_column_withColumn, !Hget. cbn. unfold services.
  rewrite get_column_withColumn. cbn.
  repeat split; try reflexivity; try assumption.
  apply Forall_forall. intros v Hv. now apply elem_of_replicate in Hv.
Qed.

(** * Further properties of the notebook's code *)

(** ** compute_service_features: errors, row count, repetition *)

(** The first name of a list that a frame lacks: the names before it are
    all columns of the frame. *)
Lemma first_missing_split (df : DataFrame) (names : list string) (c : string) :
  c ∈ names -> get_column df c = None ->
  exists present missing rest,
    names = (present ++ missing :: rest)%list /\
    Forall (fun a => is_Some (get_column df a)) present /\
    get_column df missing = None.
Proof.
  induction names as [|a names IH]; intros Hin Hc; [now apply elem_of_nil in Hin|].
  destruct (get_column df a) as [ca|] eqn:Ea.
  - apply elem_of_cons in Hin as [->|Hin]; [congruence|].
    destruct (IH Hin Hc) as (present & m & rest & -> & Hp & Hm).
    exists (a :: present), m, rest. split; [reflexivity|]. split; [|exact Hm].
    constructor; [now rewrite Ea|exact Hp].
  - exists [], a, names. split; [reflexivity|]. split; [constructor|exact Ea].
Qed.

(** Resolving a list of columns stops at the first name the frame lacks. *)
Lemma mapM_col_first_missing (df : DataFrame) (present rest : list string)
    (missing : string) :
  Forall (fun a => is_Some (get_column df a)) present ->
  get_column df missing = None ->
  mapM (col df) (present ++ missing :: rest)%list =
    Raise (mk_exn AnalysisException missing).
Proof.
  intros Hp Hm. induction Hp as [|a present [ca Ea] _ IH].
  - rewrite app_nil_l. cbn [mapM].
    assert (col df missing = Raise (mk_exn AnalysisException missing)) as ->
      by (unfold col; now rewrite Hm).
    reflexivity.
  - rewrite <- app_comm_cons. cbn [mapM].
    rewrite (col_Some _ _ _ Ea), IH. reflexivity.
Qed.

(** X1. When the frame lacks one of the six tracked service columns,
    [compute_service_features] raises an analysis error naming the first
    tracked column that is missing (every tracked column listed before
    it is a column of the frame), and returns no frame. *)
Theorem compute_service_features_missing_column (df : DataFrame) (c : string) :
  c ∈ service_columns -> get_column df c = None ->
  exists present missing rest,
    service_columns = (present ++ missing :: rest)%list /\
    Forall (fun a => is_Some (get_column df a)) present /\
    get_column df missing = None /\
    compute_service_features df = Raise (mk_exn AnalysisException missing).
Proof.
  intros Hin Hc.
  destruct (first_missing_split df service_columns c Hin Hc)
    as (present & m & rest & Hsplit & Hp & Hm).
  exists present, m, rest. split; [exact Hsplit|]. split; [exact Hp|].
  split; [exact Hm|].
  unfold compute_service_features.
  now rewrite Hsplit, (mapM_col_first_missing df present rest m Hp Hm).
Qed.

Lemma py_add_length (n : nat) (acc : pynum) (s : list float) :
  sum_of_length n acc -> length s = n ->
  exists r, py_add acc s = PySeries r /\ length r = n.
Proof.
  intros Hacc Hs. destruct acc as [x|a]; cbn [py_add].
  - eexists. split; [reflexivity|]. now rewrite length_fmap.
  - eexists. split; [reflexivity|]. cbn in Hacc.
    rewrite length_zip_with. lia.
Qed.

Lemma fold_py_add_length (n : nat) (items : list (list float)) (a : list float) :
  Forall (fun s => length s = n) items -> length a = n ->
  exists r, fold_left py_add items (PySeries a) = PySeries r /\ length r = n.
Proof.
  revert a. induction items as [|s items IH]; intros a Hall Ha.
  - exists a. now split.
  - inversion Hall as [|? ? Hs Hrest]; subst. cbn [fold_left].
    destruct (py_add_length (length a) (PySeries a) s eq_refl) as (r & Hr & Lr);
      [congruence|].
    rewrite Hr. apply IH; [|congruence].
    eapply Forall_impl; [exact Hrest|]. cbn. intros; congruence.
Qed.

(** The UDF on one or more series of [n] cells returns [n] cells. *)
Lemma num_optional_services_length (n : nat) (cols : list (list value)) :
  cols <> [] -> Forall (fun s => length s = n) cols ->
  exists r, num_optional_services cols = Ok r /\ length r = n.
Proof.
  intros Hne Hall. destruct cols as [|s cols]; [congruence|].
  inversion Hall as [|? ? Hs Hrest]; subst.
  unfold num_optional_services, py_sum. cbn [fmap list_fmap fold_left py_add].
  destruct (fold_py_add_length (length s)
              ((fun s0 => bool_astype_double (series_eq_str s0 "Yes")) <$> cols)
              ((fun y => 0 + y)%float <$> bool_astype_double (series_eq_str s "Yes")))
    as (r & Hr & Lr).
  - apply Forall_fmap. eapply Forall_impl; [exact Hrest|]. cbn. intros s0 Hs0.
    unfold bool_astype_double, series_eq_str. now rewrite !length_fmap.
  - unfold bool_astype_double, series_eq_str. now rewrite !length_fmap.
  - rewrite Hr. exists (VDouble <$> r). split; [reflexivity|].
    now rewrite length_fmap.
Qed.

Lemma mapM_col_present (df : DataFrame) (names : list string) :
  (forall c, c ∈ names -> is_Some (get_column df c)) ->
  exists cols,
    mapM (col df) names = Ok cols /\
    length cols = length names /\
    Forall (fun c => get_column df (cname c) = Some c) cols.
Proof.
  induction names as [|a names IH]; intros H.
  - exists []. repeat split. constructor.
  - destruct (H a) as [ca Ha]; [apply elem_of_cons; now left|].
    destruct IH as (cols & Hcols & Hlen & Hall);
      [intros c Hc; apply H, elem_of_cons; now right|].
    exists (ca :: cols). cbn [mapM]. rewrite (col_Some _ _ _ Ha), Hcols.
    split; [reflexivity|]. split; [cbn; congruence|].
    constructor; [|exact Hall]. now rewrite (get_column_name _ _ _ Ha).
Qed.

Lemma frame_rows_replace (n : nat) (df : DataFrame) (c' : Column) :
  frame_rows n df -> length (cdata c') = n -> frame_rows n (replace_column df c').
Proof.
  unfold frame_rows, replace_column. intros Hdf Hc.
  apply Forall_fmap. eapply Forall_impl; [exact Hdf|]. cbn.
  intros c Hlen. now destruct (named (cname c') c).
Qed.

Lemma frame_rows_withColumn (n : nat) (df : DataFrame) (a : string)
    (ty : DataType) (d : list value) :
  frame_rows n df -> length d = n -> frame_rows n (withColumn df a ty d).
Proof.
  intros Hdf Hd. unfold withColumn. destruct (existsb (named a) df).
  - now apply frame_rows_replace.
  - apply Forall_app. split; [exact Hdf|]. now repeat constructor.
Qed.

(** X2. [compute_service_features] keeps the number of rows: on a frame
    whose columns all have [n] cells it returns a frame whose columns,
    the new one included, all have [n] cells. *)
Theorem compute_service_features_rows (df : DataFrame) (n : nat) :
  frame_rows n df ->
  (forall c, c ∈ service_columns -> is_Some (get_column df c)) ->
  exists out, compute_service_features df = Ok out /\ frame_rows n out.
Proof.
  intros Hrows Hcols.
  destruct (mapM_col_present df service_columns Hcols) as (cols & Hm & Hlen & Hall).
  destruct (num_optional_services_length n (cdata <$> cols)) as (r & Hr & Lr).
  - destruct cols; [discriminate|]. discriminate.
  - apply Forall_fmap. eapply Forall_impl; [exact Hall|]. cbn.
    intros c Hc. exact (frame_rows_column n df _ c Hrows Hc).
  - unfold compute_service_features. rewrite Hm. cbn [mbind result_bind].
    rewrite Hr. cbn [mbind result_bind]. eexists. split; [reflexivity|].
    now apply frame_rows_withColumn.
Qed.

Lemma mapM_col_ext (df df' : DataFrame) (names : list string) :
  (forall c, c ∈ names -> get_column df' c = get_column df c) ->
  mapM (col df') names = mapM (col df) names.
Proof.
  induction names as [|a names IH]; intros H; [reflexivity|].
  cbn [mapM].
  assert (col df' a = col df a) as ->
    by (unfold col; rewrite (H a); [reflexivity | apply elem_of_cons; now left]).
  rewrite IH; [reflexivity|]. intros c Hc. apply H, elem_of_cons. now right.
Qed.

Lemma replace_column_absent (df : DataFrame) (c' : Column) :
  existsb (named (cname c')) df = false -> replace_column df c' = df.
Proof.
  unfold replace_column. induction df as [|c df IH]; [reflexivity|].
  cbn [existsb]. intros H. apply orb_false_iff in H as [Hc Hdf].
  rewrite fmap_cons, Hc, IH; auto.
Qed.

Lemma replace_column_twice (df : DataFrame) (c' : Column) :
  replace_column (replace_column df c') c' = replace_column df c'.
Proof.
  unfold replace_column. rewrite <- list_fmap_compose.
  apply list_fmap_ext. intros _ c _. cbn.
  destruct (named (cname c') c) eqn:E; [|now rewrite E].
  assert (named (cname c') c' = true) as -> by now apply named_eq.
  reflexivity.
Qed.

(** Writing the same column a second time changes nothing. *)
Lemma withColumn_twice (df : DataFrame) (a : string) (ty : DataType)
    (d : list value) :
  withColumn (withColumn df a ty d) a ty d = withColumn df a ty d.
Proof.
  assert (existsb (named a) (withColumn df a ty d) = true) as Hin.
  { apply existsb_named. rewrite get_column_withColumn_eq. eauto. }
  unfold withColumn at 1. rewrite Hin.
  unfold withColumn. destruct (existsb (named a) df) eqn:E.
  - apply replace_column_twice.
  - unfold replace_column. rewrite fmap_app.
    fold (replace_column df (mk_column a ty [] d)).
    rewrite (replace_column_absent df (mk_column a ty [] d) E).
    cbn. unfold named. cbn. now rewrite String.eqb_refl.
Qed.

(** X3. [compute_service_features] can be repeated: applied to its own
    result it returns that result unchanged. *)
Theorem compute_service_features_idempotent (df out : DataFrame) :
  compute_service_features df = Ok out ->
  compute_service_features out = Ok out.
Proof.
  unfold compute_service_features. intros H.
  destruct (mapM (col df) service_columns) as [cols|e] eqn:Hm; [|discriminate].
  cbn [mbind result_bind] in H.
  destruct (num_optional_services (cdata <$> cols)) as [r|e] eqn:Hr; [|discriminate].
  cbn [mbind result_bind] in H. injection H as <-.
  rewrite (mapM_col_ext df _ service_columns), Hm.
  - cbn [mbind result_bind]. rewrite Hr. cbn [mbind result_bind].
    now rewrite withColumn_twice.
  - intros c Hc. apply get_column_withColumn_ne. intros <-.
    unfold service_columns in Hc. rewrite !elem_of_cons, elem_of_nil in Hc.
    destruct Hc as [?|[?|[?|[?|[?|[?|[]]]]]]]; discriminate.
Qed.

(** ** clean_churn_features: errors, types, tags, row count *)

(** X4. [clean_churn_features] raises [KeyError] on a frame without a
    senior_citizen column, and on a frame without a total_charges
    column; it returns no frame. *)
Theorem clean_churn_features_missing_column (parse_double : string -> option float)
    (show_value : value -> string) (df : DataFrame) :
  get_column df "senior_citizen" = None \/ get_column df "total_charges" = None ->
  exists e,
    clean_churn_features parse_double show_value df = Raise e /\
    exn_class e = KeyError.
Proof.
  intros H. unfold clean_churn_features, pandas_api, getitem.
  destruct (get_column df "senior_citizen") as [senior|] eqn:Hs.
  - destruct H as [H|H]; [discriminate|]. cbn [mbind result_bind].
    unfold astype, setitem. cbn [forallb fst].
    assert (existsb (named "total_charges")
              (withColumn df "senior_citizen"
                 (ctype (series_map [(1%Z, "Yes"); (0%Z, "No")] senior))
                 (cdata (series_map [(1%Z, "Yes"); (0%Z, "No")] senior))) = false)
      as ->.
    { apply existsb_named_false. now rewrite get_column_withColumn. }
    cbn [andb mbind result_bind]. eexists. split; reflexivity.
  - cbn [mbind result_bind]. eexists. split; reflexivity.
Qed.

(** X5. The two transformations do not commute: on a frame that has
    every column the cleaner reads but no num_optional_services column,
    as the bronze table before [compute_service_features],
    [clean_churn_features] raises an analysis error on that name. *)
Theorem clean_before_compute_fails (parse_double : string -> option float)
    (show_value : value -> string) (df : DataFrame)
    (senior tenure monthly total key : Column) :
  get_column df "senior_citizen" = Some senior ->
  get_column df "tenure" = Some tenure ->
  get_column df "monthly_charges" = Some monthly ->
  get_column df "total_charges" = Some total ->
  get_column df primary_key = Some key ->
  fillable tenure = true ->
  fillable monthly = true ->
  get_column df "num_optional_services" = None ->
  clean_churn_features parse_double show_value df =
  Raise (mk_exn AnalysisException "num_optional_services").
Proof.
  intros Hsenior Htenure Hmonthly Htotal Hkey Ftenure Fmonthly Hnone.
  pose proof (get_column_name _ _ _ Htenure) as Ntenure.
  pose proof (get_column_name _ _ _ Hmonthly) as Nmonthly.
  pose proof (get_column_name _ _ _ Htotal) as Ntotal.
  pose proof (get_column_name _ _ _ Hkey) as Nkey.
  unfold clean_churn_features, pandas_api, to_spark, getitem, setitem.
  rewrite Hsenior. cbn [mbind result_bind].
  set (df1 := withColumn df _ _ _).
  assert (G1 : forall n, get_column df1 n = _) by
    (intros n; unfold df1; apply get_column_withColumn).
  rewrite astype_Ok.
  2:{ repeat constructor; cbn [fst]; rewrite G1; cbn; eauto. }
  cbn [mbind result_bind].
  set (df2 := _ <$> df1).
  assert (G2 : forall n, get_column df2 n = _) by
    (intros n; unfold df2; apply get_column_astype).
  assert (T2 : get_column df2 "tenure" = Some tenure)
    by (rewrite G2, G1; cbn; now rewrite Htenure).
  rewrite (fillna_Some _ _ _ _ _ _ T2 Ftenure). cbn [mbind result_bind].
  set (df3 := replace_column df2 _).
  assert (G3 : forall n, get_column df3 n = _) by
    (intros n; unfold df3; apply get_column_replace_if).
  rewrite cname_filled, Ntenure in G3.
  assert (T3 : get_column df3 "monthly_charges" = Some monthly)
    by (rewrite G3, G2, G1; cbn; now rewrite Hmonthly).
  rewrite (fillna_Some _ _ _ _ _ _ T3 Fmonthly). cbn [mbind result_bind].
  set (df4 := replace_column df3 _).
  assert (G4 : forall n, get_column df4 n = _) by
    (intros n; unfold df4; apply get_column_replace_if).
  rewrite cname_filled, Nmonthly in G4.
  assert (T4 : get_column df4 "total_charges" =
               Some (series_astype parse_double show_value dtype_double total))
    by (rewrite G4, G3, G2, G1; cbn; now rewrite Htotal).
  rewrite (fillna_Some _ _ _ _ _ _ T4 eq_refl). cbn [mbind result_bind].
  set (df5 := replace_column df4 _).
  assert (G5 : forall n, get_column df5 n = _) by
    (intros n; unfold df5; apply get_column_replace_if).
  rewrite cname_filled in G5. cbn [series_astype cname] in G5. rewrite Ntotal in G5.
  assert (T5 : get_column df5 "customer_id" = Some key)
    by (rewrite G5, G4, G3, G2, G1; cbn;
        change (get_column df "customer_id") with (get_column df primary_key);
        now rewrite Hkey).
  rewrite (withMetadata_Some _ primary_key _ _ T5). cbn [mbind result_bind].
  set (df6 := replace_column df5 _).
  assert (G6 : forall n, get_column df6 n = _) by
    (intros n; unfold df6; apply get_column_replace_if).
  cbn [set_metadata cname] in G6. rewrite Nkey in G6.
  assert (T6 : get_column df6 "num_optional_services" = None)
    by (rewrite G6, G5, G4, G3, G2, G1; cbn; now rewrite Hnone).
  unfold withMetadata, col. rewrite T6. reflexivity.
Qed.

Lemma ctype_filled_numeric (parse_double : string -> option float)
    (show_value : value -> string) (x : float) (c : Column) :
  numeric c = true -> ctype (filled parse_double show_value x c) = DoubleType.
Proof.
  unfold numeric, filled, series_fillna.
  destruct (ctype c); intros H; try discriminate; reflexivity.
Qed.

(** X6. After cleaning, tenure, monthly_charges and total_charges are
    columns of doubles: a whole-number tenure column is widened, and
    total_charges is a double column whatever type it came in. *)
Theorem clean_churn_features_billing_types (parse_double : string -> option float)
    (show_value : value -> string) (df : DataFrame)
    (senior tenure monthly total key services : Column) :
  cleanable df senior tenure monthly total key services ->
  numeric tenure = true ->
  numeric monthly = true ->
  exists out,
    clean_churn_features parse_double show_value df = Ok out /\
    forall name, name ∈ ["tenure"; "monthly_charges"; "total_charges"] ->
      ctype <$> get_column out name = Some DoubleType.
Proof.
  intros Hc Nt Nm.
  destruct (clean_columns parse_double show_value _ _ _ _ _ _ _ Hc)
    as (out & Hout & _ & Hget).
  exists out. split; [exact Hout|].
  intros name Hin. rewrite Hget.
  rewrite !elem_of_cons, elem_of_nil in Hin.
  destruct Hin as [->|[->|[->|[]]]]; cbn.
  - now rewrite ctype_filled_numeric.
  - now rewrite ctype_filled_numeric.
  - reflexivity.
Qed.

(** X7. A total_charges cell holding text becomes the number the text
    parses to, and 0.0 when the text does not parse (blank text, for
    one) or parses to NaN. *)
Theorem clean_churn_features_text_charges (parse_double : string -> option float)
    (show_value : value -> string) (df : DataFrame)
    (senior tenure monthly total key services : Column) :
  cleanable df senior tenure monthly total key services ->
  exists out,
    clean_churn_features parse_double show_value df = Ok out /\
    forall i s, cdata total !! i = Some (VString s) ->
      cell out "total_charges" i = Some (VDouble (or_zero (parse_double s))).
Proof.
  intros Hc.
  destruct (clean_columns parse_double show_value _ _ _ _ _ _ _ Hc)
    as (out & Hout & _ & Hget).
  exists out. split; [exact Hout|].
  intros i s Hs. unfold cell. rewrite Hget.
  change (cdata (cleaned_total parse_double show_value total) !! i =
          Some (VDouble (or_zero (parse_double s)))).
  unfold cleaned_total. rewrite (filled_cast_lookup _ _ _ _ _ Hs).
  unfold to_double. cbn. now destruct (parse_double s).
Qed.

(** X8. The cleaned frame tags the primary key with semantic type
    "native" and num_optional_services with semantic type "numeric";
    the tag is the whole metadata of the column, whatever it carried. *)
Theorem clean_churn_features_tags (parse_double : string -> option float)
    (show_value : value -> string) (df : DataFrame)
    (senior tenure monthly total key services : Column) :
  cleanable df senior tenure monthly total key services ->
  exists out,
    clean_churn_features parse_double show_value df = Ok out /\
    cmeta <$> get_column out primary_key =
      Some [("spark.contentAnnotation.semanticType", "native")] /\
    cmeta <$> get_column out "num_optional_services" =
      Some [("spark.contentAnnotation.semanticType", "numeric")].
Proof.
  intros Hc.
  destruct (clean_columns parse_double show_value _ _ _ _ _ _ _ Hc)
    as (out & Hout & _ & Hget).
  exists out. split; [exact Hout|]. now rewrite !Hget.
Qed.

Lemma length_filled (parse_double : string -> option float)
    (show_value : value -> string) (x : float) (c : Column) :
  length (cdata (filled parse_double show_value x c)) = length (cdata c).
Proof.
  unfold filled, series_fillna.
  destruct (ctype c); cbn [cdata]; now rewrite ?length_fmap.
Qed.

(** X9. [clean_churn_features] keeps the number of rows: every column of
    the frame it returns has as many cells as the columns of its
    input. *)
Theorem clean_churn_features_rows (parse_double : string -> option float)
    (show_value : value -> string) (df : DataFrame)
    (senior tenure monthly total key services : Column) (n : nat) :
  cleanable df senior tenure monthly total key services ->
  frame_rows n df ->
  exists out,
    clean_churn_features parse_double show_value df = Ok out /\
    forall name c, get_column out name = Some c -> length (cdata c) = n.
Proof.
  intros Hc Hrows.
  destruct (clean_columns parse_double show_value _ _ _ _ _ _ _ Hc)
    as (out & Hout & _ & Hget).
  exists out. split; [exact Hout|].
  destruct Hc as [Hs Ht Hm Htot Hk Hsv _ _].
  pose proof (frame_rows_column n df _ _ Hrows Hs) as Ls.
  pose proof (frame_rows_column n df _ _ Hrows Ht) as Lt.
  pose proof (frame_rows_column n df _ _ Hrows Hm) as Lm.
  pose proof (frame_rows_column n df _ _ Hrows Htot) as Ltot.
  pose proof (frame_rows_column n df _ _ Hrows Hk) as Lk.
  pose proof (frame_rows_column n df _ _ Hrows Hsv) as Lsv.
  intros name c. rewrite Hget. unfold cleaned_lookup.
  repeat match goal with
         | |- context [String.eqb name ?lit] => destruct (String.eqb name lit)
         end; intros E; try (injection E as <-).
  - exact Lsv.
  - exact Lk.
  - unfold cleaned_total. rewrite length_filled. cbn [series_astype cdata].
    now rewrite length_fmap.
  - now rewrite length_filled.
  - now rewrite length_filled.
  - unfold cleaned_senior, series_astype, series_map. cbn [cdata].
    now rewrite !length_fmap.
  - exact (frame_rows_column n df _ _ Hrows E).
Qed.

(** ** The frame kept for the feature store *)

Lemma columns_drop (df : DataFrame) (n : string) :
  columns (drop df n) = List.filter (fun m => negb (String.eqb m n)) (columns df).
Proof.
  unfold columns, drop. induction df as [|c df IH]; [reflexivity|].
  cbn [List.filter fmap list_fmap]. unfold named at 1.
  destruct (String.eqb (cname c) n); cbn [negb]; [exact IH|].
  cbn [fmap list_fmap]. f_equal. exact IH.
Qed.

Lemma get_column_drop_ne (df : DataFrame) (n m : string) :
  n <> m -> get_column (drop df n) m = get_column df m.
Proof.
  intros Hne. unfold drop. induction df as [|c df IH]; [reflexivity|].
  cbn [List.filter]. destruct (named n c) eqn:E; cbn [negb].
  - rewrite IH, get_column_cons.
    assert (named m c = false) as ->; [|reflexivity].
    apply named_eq in E. apply named_neq. congruence.
  - rewrite !get_column_cons, IH. reflexivity.
Qed.

(** X11. On a bronze table that has neither a num_optional_services nor
    a timestamp column, the frame kept for the feature store lists the
    bronze columns without churn, in their order, followed by
    num_optional_services and the timestamp; and dropping churn changes
    no other column of the frame the label cell received. *)
Theorem feature_frame_columns (parse_double : string -> option float)
    (show_value : value -> string) (this_time : float) (telcoDF : DataFrame)
    (senior tenure monthly total key : Column) :
  (forall c, c ∈ service_columns -> is_Some (get_column telcoDF c)) ->
  get_column telcoDF "senior_citizen" = Some senior ->
  get_column telcoDF "tenure" = Some tenure ->
  get_column telcoDF "monthly_charges" = Some monthly ->
  get_column telcoDF "total_charges" = Some total ->
  get_column telcoDF primary_key = Some key ->
  fillable tenure = true ->
  fillable monthly = true ->
  get_column telcoDF "num_optional_services" = None ->
  get_column telcoDF timestamp_col = None ->
  exists churn_features_n_predsDF,
    churn_features_n_preds parse_double show_value this_time telcoDF =
      Ok churn_features_n_predsDF /\
    columns (drop churn_features_n_predsDF label_col) =
      List.filter (fun m => negb (String.eqb m label_col)) (columns telcoDF)
      ++ ["num_optional_services"; timestamp_col] /\
    forall n, n <> label_col ->
      get_column (drop churn_features_n_predsDF label_col) n =
      get_column churn_features_n_predsDF n.
Proof.
  intros Hcols Hs Ht Hm Htot Hk Ft Fm Hnos Hts.
  destruct (compute_service_features_Ok telcoDF Hcols) as [r Hr].
  rewrite (columns_withColumn_fresh telcoDF _ DoubleType r Hnos) in Hr.
  set (added := mk_column "num_optional_services" DoubleType [] r) in Hr.
  assert (G : forall n, get_column (telcoDF ++ [added]) n =
                        if String.eqb "num_optional_services" n then Some added
                        else get_column telcoDF n).
  { intros n. unfold added.
    rewrite <- (columns_withColumn_fresh telcoDF _ DoubleType r Hnos).
    apply get_column_withColumn. }
  assert (cleanable (telcoDF ++ [added]) senior tenure monthly total key added)
    as Hclean.
  { constructor; try assumption; rewrite G; cbn;
      first [assumption | exact Hk | reflexivity]. }
  destruct (clean_columns parse_double show_value _ _ _ _ _ _ _ Hclean)
    as (cleaned & Hcleaned & Hnames & Hget).
  unfold churn_features_n_preds. rewrite Hr. cbn [mbind result_bind].
  rewrite Hcleaned. cbn [mbind result_bind].
  eexists. split; [reflexivity|]. split.
  - rewrite columns_withColumn_fresh.
    2:{ rewrite Hget. cbn. rewrite G. cbn. exact Hts. }
    rewrite columns_drop. unfold columns at 1. rewrite fmap_app.
    fold (columns cleaned). rewrite Hnames. unfold columns at 1.
    rewrite fmap_app. fold (columns telcoDF).
    rewrite !List.filter_app. cbn. now rewrite <- app_assoc.
  - intros n Hn. apply get_column_drop_ne. congruence.
Qed.

(** ** The label cell: errors and carried columns *)

Lemma select_first_missing (df : DataFrame) (present rest : list string)
    (missing : string) :
  Forall (fun a => is_Some (get_column df a)) present ->
  get_column df missing = None ->
  select df (present ++ missing :: rest)%list =
    Raise (mk_exn AnalysisException missing).
Proof.
  intros Hp Hm. induction Hp as [|a present [ca Ea] _ IH].
  - rewrite app_nil_l. cbn [select].
    assert (col df missing = Raise (mk_exn AnalysisException missing)) as ->
      by (unfold col; now rewrite Hm).
    reflexivity.
  - rewrite <- app_comm_cons. cbn [select].
    rewrite (col_Some _ _ _ Ea), IH. reflexivity.
Qed.

(** X12. On a frame that lacks the primary key, the timestamp or the
    churn column, the label cell raises an analysis error naming the
    first of the three that is missing (those selected before it are
    columns of the frame), and the catalog is left as it was: no label
    table is written. *)
Theorem label_cell_missing_column (catalog db advanced_label_table_name : string)
    (G : Generator) (layout : list nat) (df : DataFrame) (c : string)
    (ws : Workspace) :
  c ∈ [primary_key; timestamp_col; label_col] -> get_column df c = None ->
  exists present missing rest,
    [primary_key; timestamp_col; label_col] = (present ++ missing :: rest)%list /\
    Forall (fun a => is_Some (get_column df a)) present /\
    get_column df missing = None /\
    label_frame G layout df = Raise (mk_exn AnalysisException missing) /\
    label_cell catalog db advanced_label_table_name G layout df ws =
      (ws, Raise (mk_exn AnalysisException missing)).
Proof.
  intros Hin Hc.
  destruct (first_missing_split df _ c Hin Hc)
    as (present & m & rest & Hsplit & Hp & Hm).
  assert (label_frame G layout df = Raise (mk_exn AnalysisException m)) as Hl.
  { unfold label_frame.
    now rewrite Hsplit, (select_first_missing df present rest m Hp Hm). }
  exists present, m, rest. split; [exact Hsplit|]. split; [exact Hp|].
  split; [exact Hm|]. split; [exact Hl|].
  unfold label_cell, lift, mbind, run_bind. now rewrite Hl.
Qed.

(** X13. The label frame carries the primary key, timestamp and churn
    columns of its input whole (name, type, metadata and every cell),
    and when the layout covers the input's [n] rows every column of the
    label frame, the split column included, has [n] cells. *)
Theorem label_frame_carries_columns (G : Generator) (layout : list nat)
    (df : DataFrame) (key ts churn : Column) (n : nat) :
  get_column df primary_key = Some key ->
  get_column df timestamp_col = Some ts ->
  get_column df label_col = Some churn ->
  frame_rows n df ->
  sum_list layout = n ->
  exists out,
    label_frame G layout df = Ok out /\
    get_column out primary_key = Some key /\
    get_column out timestamp_col = Some ts /\
    get_column out label_col = Some churn /\
    frame_rows n out.
Proof.
  intros Hk Ht Hc Hrows Hlayout.
  pose proof (frame_rows_column n df _ _ Hrows Hk) as Lk.
  pose proof (frame_rows_column n df _ _ Hrows Ht) as Lt.
  pose proof (frame_rows_column n df _ _ Hrows Hc) as Lc.
  pose proof (get_column_name _ _ _ Hk) as Nk.
  pose proof (get_column_name _ _ _ Ht) as Nt.
  pose proof (get_column_name _ _ _ Hc) as Nc.
  eexists. split; [exact (label_frame_Ok G layout df key ts churn Hk Ht Hc)|].
  assert (length (split_of <$> rand G 42 layout) = n) as Ls
    by now rewrite length_fmap, length_rand.
  destruct key as [kn kt km kd], ts as [tn tt tm td], churn as [cn ct cm cd].
  cbn in Nk, Nt, Nc, Lk, Lt, Lc. subst kn tn cn.
  repeat split; try reflexivity.
  unfold frame_rows. repeat constructor; assumption.
Qed.

(** X21. The label cell overwrites: whatever the catalog held under
    the label table's name, afterwards that table holds exactly the
    label frame; every other table, the online tables and the output
    are as before, and the cell returns the input without churn. *)
Theorem label_cell_overwrites (catalog db advanced_label_table_name : string)
    (G : Generator) (layout : list nat) (df : DataFrame)
    (key ts churn : Column) (ws : Workspace) :
  get_column df primary_key = Some key ->
  get_column df timestamp_col = Some ts ->
  get_column df label_col = Some churn ->
  exists ws',
    label_cell catalog db advanced_label_table_name G layout df ws =
      (ws', Ok (drop df label_col)) /\
    tbl_frame <$> uc_tables ws' !! qualified catalog db advanced_label_table_name =
      Some [key; ts; churn;
            mk_column "split" StringType [] (split_of <$> rand G 42 layout)] /\
    (forall other, other <> qualified catalog db advanced_label_table_name ->
       uc_tables ws' !! other = uc_tables ws !! other) /\
    online_tables ws' = online_tables ws /\
    stdout ws' = stdout ws.
Proof.
  intros Hk Ht Hc.
  unfold label_cell, lift, saveAsTable, mbind, run_bind, mret, run_ret.
  rewrite (label_frame_Ok G layout df key ts churn Hk Ht Hc).
  eexists. split; [reflexivity|]. cbn [uc_tables online_tables stdout set_tables].
  split; [now rewrite lookup_insert_eq|]. split; [|split; reflexivity].
  intros other Hne. now apply lookup_insert_ne.
Qed.

(** ** The constraint cell: errors and repetition *)

(** X14. Without a label table in the catalog the constraint cell
    raises at its first statement and changes nothing. *)
Theorem constraints_cell_without_table (catalog db advanced_label_table_name : string)
    (ws : Workspace) :
  uc_tables ws !! qualified catalog db advanced_label_table_name = None ->
  constraints_cell catalog db advanced_label_table_name ws =
  (ws, Raise (mk_exn AnalysisException "TABLE_OR_VIEW_NOT_FOUND")).
Proof.
  intros H. unfold constraints_cell, mbind, run_bind, spark_sql. now rewrite H.
Qed.

Lemma existsb_is_sql_null (d : list value) :
  VNull ∈ d -> existsb is_sql_null d = true.
Proof.
  intros H. apply existsb_exists. exists VNull. split; [|reflexivity].
  now apply list_elem_of_In.
Qed.

(** X15. When the primary-key column of the label table holds a NULL,
    the constraint cell raises at SET NOT NULL and changes nothing: the
    table gets no NOT NULL column and no primary-key constraint. *)
Theorem constraints_cell_null_key (catalog db advanced_label_table_name : string)
    (ws : Workspace) (t : Table) (key : Column) :
  uc_tables ws !! qualified catalog db advanced_label_table_name = Some t ->
  get_column (tbl_frame t) primary_key = Some key ->
  VNull ∈ cdata key ->
  constraints_cell catalog db advanced_label_table_name ws =
  (ws, Raise (mk_exn AnalysisException "NOT NULL constraint violated")).
Proof.
  intros Ht Hk Hnull.
  unfold constraints_cell, mbind, run_bind, spark_sql.
  now rewrite Ht, Hk, (existsb_is_sql_null _ Hnull).
Qed.

Lemma set_not_null_inv (table column : string) (ws ws' : Workspace) :
  spark_sql (AlterColumnSetNotNull table column) ws = (ws', Ok tt) ->
  exists t c,
    uc_tables ws !! table = Some t /\
    get_column (tbl_frame t) column = Some c /\
    existsb is_sql_null (cdata c) = false /\
    ws' = set_tables ws
            (<[table := mk_table (tbl_frame t) (column :: tbl_not_null t)
                          (tbl_constraints t)]> (uc_tables ws)).
Proof.
  unfold spark_sql. intros H.
  destruct (uc_tables ws !! table) as [t|] eqn:Et; [|discriminate].
  destruct (get_column (tbl_frame t) column) as [c|] eqn:Ec; [|discriminate].
  destruct (existsb is_sql_null (cdata c)) eqn:E; [discriminate|].
  injection H as <-. exists t, c. repeat split; assumption.
Qed.

Lemma add_primary_key_inv (table name : string) (cols : list string)
    (ws ws' : Workspace) :
  spark_sql (AddPrimaryKey table name cols) ws = (ws', Ok tt) ->
  exists t,
    uc_tables ws !! table = Some t /\
    ws' = set_tables ws
            (<[table := mk_table (tbl_frame t) (tbl_not_null t)
                          ((name, cols) :: tbl_constraints t)]> (uc_tables ws)).
Proof.
  unfold spark_sql. intros H.
  destruct (uc_tables ws !! table) as [t|] eqn:Et; [|discriminate].
  destruct (contains (fst <$> tbl_constraints t) name); [discriminate|].
  destruct (forallb (contains (tbl_not_null t)) cols); [|discriminate].
  injection H as <-. now exists t.
Qed.

Lemma add_primary_key_exists (table name : string) (cols : list string)
    (ws : Workspace) (t : Table) :
  uc_tables ws !! table = Some t ->
  contains (fst <$> tbl_constraints t) name = true ->
  spark_sql (AddPrimaryKey table name cols) ws =
  (ws, Raise (mk_exn AnalysisException "CONSTRAINT_ALREADY_EXISTS")).
Proof. intros Ht Hc. unfold spark_sql. now rewrite Ht, Hc. Qed.

(** X16. The constraint cell cannot be run twice: after a run that
    returned, a second run raises at ADD CONSTRAINT, because the
    constraint of that name is already recorded on the table. *)
Theorem constraints_cell_not_repeatable
    (catalog db advanced_label_table_name : string) (ws ws' : Workspace) :
  constraints_cell catalog db advanced_label_table_name ws = (ws', Ok tt) ->
  exists ws'',
    constraints_cell catalog db advanced_label_table_name ws' =
    (ws'', Raise (mk_exn AnalysisException "CONSTRAINT_ALREADY_EXISTS")).
Proof.
  unfold constraints_cell.
  set (table := qualified catalog db advanced_label_table_name).
  set (name := (advanced_label_table_name ++ "_pk")%string).
  intros H. unfold mbind, run_bind in H.
  destruct (spark_sql (AlterColumnSetNotNull table primary_key) ws)
    as [ws1 [[]|e1]] eqn:E1; [|discriminate].
  destruct (spark_sql (AlterColumnSetNotNull table timestamp_col) ws1)
    as [ws2 [[]|e2]] eqn:E2; [|discriminate].
  apply set_not_null_inv in E1 as (t & ck & L0 & Gk & Nk & ->).
  apply set_not_null_inv in E2 as (t1 & ct & L1 & Gt & Nt & ->).
  apply add_primary_key_inv in H as (t2 & L2 & ->).
  cbn [uc_tables set_tables] in L1, L2 |- *.
  rewrite lookup_insert_eq in L1. injection L1 as <-.
  rewrite lookup_insert_eq in L2. injection L2 as <-.
  cbn [tbl_frame tbl_not_null tbl_constraints] in Gt |- *.
  set (t3 := mk_table (tbl_frame t) (timestamp_col :: primary_key :: tbl_not_null t)
               ((name, [primary_key; timestamp_col]) :: tbl_constraints t)).
  set (ws3 := set_tables _ (<[table := t3]> _)).
  assert (L3 : uc_tables ws3 !! table = Some t3) by apply lookup_insert_eq.
  set (t4 := mk_table (tbl_frame t3) (primary_key :: tbl_not_null t3)
               (tbl_constraints t3)).
  set (ws4 := set_tables ws3 (<[table := t4]> (uc_tables ws3))).
  assert (L4 : uc_tables ws4 !! table = Some t4) by apply lookup_insert_eq.
  set (t5 := mk_table (tbl_frame t4) (timestamp_col :: tbl_not_null t4)
               (tbl_constraints t4)).
  set (ws5 := set_tables ws4 (<[table := t5]> (uc_tables ws4))).
  assert (L5 : uc_tables ws5 !! table = Some t5) by apply lookup_insert_eq.
  exists ws5.
  rewrite (run_bind_Ok _ _ ws3 ws4 tt)
    by exact (set_not_null_Ok table primary_key ws3 t3 ck L3 Gk Nk).
  rewrite (run_bind_Ok _ _ ws4 ws5 tt)
    by exact (set_not_null_Ok table timestamp_col ws4 t4 ct L4 Gt Nt).
  apply (add_primary_key_exists table name _ ws5 t5 L5).
  cbn. unfold contains. cbn. now rewrite String.eqb_refl.
Qed.

(** ** The pre-drop cells: what they leave behind *)

(** X17. In every state of the workspace the two pre-drop cells leave
    the catalog without the feature table and the workspace without its
    online table, touch no other table, and print exactly two lines. *)
Theorem pre_drop_leaves_no_table (catalog db : string) (online_missing : exn)
    (ws : Workspace) :
  isinstance online_missing Exception = true ->
  exists ws',
    pre_drop_cells catalog db online_missing ws = (ws', Ok tt) /\
    uc_tables ws' = delete (qualified catalog db feature_table_name) (uc_tables ws) /\
    online_tables ws' =
      online_tables ws
      ∖ {[(qualified catalog db feature_table_name ++ "_online_table")%string]} /\
    length (stdout ws') = length (stdout ws) + 2.
Proof.
  intros Hexc.
  set (table := qualified catalog db feature_table_name).
  set (online := (table ++ "_online_table")%string).
  assert (exists ws1,
            drop_online_table_cell catalog db online_missing ws = (ws1, Ok tt) /\
            uc_tables ws1 = uc_tables ws /\
            online_tables ws1 = online_tables ws ∖ {[online]} /\
            length (stdout ws1) = length (stdout ws) + 1) as (ws1 & R1 & T1 & O1 & P1).
  { destruct (decide (online ∈ online_tables ws)) as [Hin|Habs].
    - eexists. split; [exact (drop_online_table_present catalog db _ ws Hin)|].
      cbn. repeat split. rewrite length_app. cbn. lia.
    - eexists.
      split; [exact (drop_online_table_absent catalog db _ Hexc ws Habs)|].
      cbn. repeat split.
      + symmetry. apply difference_disjoint_L. now apply disjoint_singleton_r.
      + rewrite length_app. cbn. lia. }
  assert (exists ws2,
            drop_feature_table_cell catalog db ws1 = (ws2, Ok tt) /\
            uc_tables ws2 = delete table (uc_tables ws1) /\
            online_tables ws2 = online_tables ws1 /\
            length (stdout ws2) = length (stdout ws1) + 1) as (ws2 & R2 & T2 & O2 & P2).
  { destruct (uc_tables ws1 !! table) as [t|] eqn:E.
    - eexists. split; [exact (drop_feature_table_present catalog db ws1 t E)|].
      cbn. repeat split.
      + apply delete_delete_eq.
      + rewrite length_app. cbn. lia.
    - eexists. split; [exact (drop_feature_table_absent catalog db ws1 E)|].
      cbn. repeat split.
      + symmetry. now apply delete_id.
      + rewrite length_app. cbn. lia. }
  exists ws2. split.
  - unfold pre_drop_cells. now rewrite (run_bind_Ok _ _ ws ws1 tt R1).
  - rewrite T2, T1, O2, O1, P2, P1. repeat split. lia.
Qed.

(** X18. The first pre-drop cell catches [Exception] only: when the
    online table is absent and the client signals it with an exception
    outside [Exception], the exception leaves the cell, the workspace is
    unchanged, and the second pre-drop cell does not run. *)
Theorem pre_drop_propagates_other_exceptions (catalog db : string)
    (online_missing : exn) (ws : Workspace) :
  isinstance online_missing Exception = false ->
  (qualified catalog db feature_table_name ++ "_online_table")%string
    ∉ online_tables ws ->
  drop_online_table_cell catalog db online_missing ws = (ws, Raise online_missing) /\
  pre_drop_cells catalog db online_missing ws = (ws, Raise online_missing).
Proof.
  intros Hexc Habs. apply (bool_decide_eq_false_2 _) in Habs.
  assert (drop_online_table_cell catalog db online_missing ws =
          (ws, Raise online_missing)) as H.
  { unfold drop_online_table_cell, try_except, mbind, run_bind, online_tables_get.
    now rewrite Habs, Hexc. }
  split; [exact H|].
  unfold pre_drop_cells, mbind, run_bind. now rewrite H.
Qed.

(** ** avg_price_increase on missing arguments *)

(** X19. A missing tenure makes the function body raise [TypeError] at
    the comparison, whatever the other two arguments are; with a
    positive tenure, a missing monthly charge or total charge makes it
    raise [TypeError] at the arithmetic. *)
Theorem avg_price_increase_none_raises (tenure : float) (a b : pyval) :
  (exists e, avg_price_increase_body a PyNone b = Raise e /\ exn_class e = TypeError) /\
  ((0 <? tenure)%float = true ->
   (exists e, avg_price_increase_body a (PyFloat tenure) PyNone = Raise e /\
              exn_class e = TypeError) /\
   (exists e, avg_price_increase_body PyNone (PyFloat tenure) b = Raise e /\
              exn_class e = TypeError)).
Proof.
  split.
  - unfold avg_price_increase_body, py_gt. cbn. eexists. split; reflexivity.
  - intros Hpos.
    assert (py_gt (PyFloat tenure) (PyInt 0) = Ok true) as Hgt.
    { unfold py_gt. cbn [as_float]. change (long_to_double 0) with 0%float.
      now rewrite Hpos. }
    unfold avg_price_increase_body. rewrite Hgt. cbn [mbind result_bind]. split.
    + unfold py_truediv. cbn. eexists. split; reflexivity.
    + unfold py_truediv.
      destruct b as [x|n|]; cbn [as_float];
        rewrite ?(positive_is_not_zero tenure Hpos); cbn; eexists; split; reflexivity.
Qed.

(** X20. When tenure is a number that is not positive (zero, negative or
    NaN) the function body returns 0 without looking at the other two
    arguments: missing ones do not raise. *)
Theorem avg_price_increase_short_circuit (tenure : float) (a b : pyval) :
  (0 <? tenure)%float = false ->
  avg_price_increase_body a (PyFloat tenure) b = Ok (PyInt 0).
Proof.
  intros Hneg. unfold avg_price_increase_body, py_gt. cbn [as_float].
  change (long_to_double 0) with 0%float. now rewrite Hneg.
Qed.

(** * Worked instances *)

Example sample_services_computed :
  compute_service_features sample_telco = Ok sample_services.
Proof. reflexivity. Qed.

Lemma sample_cleanable :
  cleanable sample_services sample_senior sample_tenure sample_monthly
    sample_total sample_key sample_count.
Proof. constructor; reflexivity. Qed.

Lemma sample_service_columns :
  forall c, c ∈ service_columns -> is_Some (get_column sample_telco c).
Proof.
  apply Forall_forall. unfold service_columns.
  repeat constructor; eexists; reflexivity.
Qed.

Lemma num_optional_services_counts_yes_witness :
  exists out,
    compute_service_features sample_telco = Ok out /\
    forall i, i < 3 ->
      exists x,
        cell out "num_optional_services" i = Some (VDouble x) /\
        x = count_to_double (yes_count sample_telco i) /\
        yes_count sample_telco i <= 6 /\
        (0 <=? x)%float = true /\ (x <=? 6)%float = true.
Proof.
  apply (num_optional_services_counts_yes sample_telco 3).
  - apply frame_rowsb_spec. reflexivity.
  - exact sample_service_columns.
Defined.

Lemma clean_fills_missing_numbers_witness :
  exists out,
    clean_churn_features sample_parse sample_show sample_services = Ok out /\
    forall name orig,
      (name, orig) ∈ [("tenure", sample_tenure); ("monthly_charges", sample_monthly);
                      ("total_charges", sample_total)] ->
      forall i v, cdata orig !! i = Some v ->
        exists y,
          cell out name i = Some (VDouble y) /\
          is_nan y = false /\
          (isnull v = true -> y = 0%float) /\
          (forall x, to_double sample_parse sample_show v = Some x ->
                     is_nan x = false -> y = x).
Proof.
  apply (clean_fills_missing_numbers sample_parse sample_show sample_services
           sample_senior sample_tenure sample_monthly sample_total sample_key
           sample_count sample_cleanable).
  - reflexivity.
  - unfold well_typed. repeat constructor.
  - reflexivity.
  - unfold well_typed. repeat constructor.
Defined.

Lemma clean_remaps_senior_citizen_witness :
  exists out sc,
    clean_churn_features sample_parse sample_show sample_services = Ok out /\
    get_column out "senior_citizen" = Some sc /\
    ctype sc = StringType /\
    forall i v, cdata sample_senior !! i = Some v ->
      (reads_as 1 v = true -> cdata sc !! i = Some (VString "Yes")) /\
      (reads_as 0 v = true -> cdata sc !! i = Some (VString "No")).
Proof.
  exact (clean_remaps_senior_citizen sample_parse sample_show sample_services
           sample_senior sample_tenure sample_monthly sample_total sample_key
           sample_count sample_cleanable).
Defined.

Lemma clean_unmapped_senior_is_null_witness :
  exists out,
    clean_churn_features sample_parse sample_show sample_services = Ok out /\
    forall i v, cdata sample_senior !! i = Some v ->
      number_or_null v = true ->
      reads_as 0 v = false -> reads_as 1 v = false ->
      cell out "senior_citizen" i = Some VNull.
Proof.
  exact (clean_unmapped_senior_is_null sample_parse sample_show sample_services
           sample_senior sample_tenure sample_monthly sample_total sample_key
           sample_count sample_cleanable).
Defined.

(** The cleaned sample, cell by cell. *)
Example sample_cleaned_cells :
  exists out,
    clean_churn_features sample_parse sample_show sample_services = Ok out /\
    cdata <$> get_column out "tenure" = Some [VDouble 1; VDouble 0; VDouble 2] /\
    cdata <$> get_column out "monthly_charges" =
      Some [VDouble 29.85; VDouble 56.95; VDouble 0] /\
    cdata <$> get_column out "total_charges" =
      Some [VDouble 29.85; VDouble 0; VDouble 0] /\
    cdata <$> get_column out "senior_citizen" =
      Some [VString "No"; VString "Yes"; VNull] /\
    columns out = columns sample_services.
Proof. eexists. repeat split; reflexivity. Qed.

Lemma transforms_frame_witness :
  (exists out added,
     compute_service_features sample_telco = Ok out /\
     cname added = "num_optional_services" /\
     (forall n, n <> "num_optional_services" ->
                get_column out n = get_column sample_telco n) /\
     (get_column sample_telco "num_optional_services" = None ->
      out = sample_telco ++ [added])) /\
  (exists out,
     clean_churn_features sample_parse sample_show sample_services = Ok out /\
     columns out = columns sample_services /\
     forall n c, untouched_by_cleaning n -> get_column sample_services n = Some c ->
       exists c',
         get_column out n = Some c' /\
         cname c' = cname c /\ ctype c' = ctype c /\ cdata c' = cdata c /\
         (n <> primary_key -> n <> "num_optional_services" -> c' = c)).
Proof.
  exact (transforms_frame sample_parse sample_show sample_telco sample_services
           sample_senior sample_tenure sample_monthly sample_total sample_key
           sample_count sample_service_columns sample_cleanable).
Defined.

Lemma split_assigns_one_label_witness :
  exists out labels,
    label_frame stepping_generator [2] (two_customers "A" "B") = Ok out /\
    get_column out "split" = Some labels /\
    length (cdata labels) = sum_list [2] /\
    forall i, i < sum_list [2] ->
      exists r,
        rand stepping_generator 42 [2] !! i = Some (VDouble r) /\
        cdata labels !! i = Some (VString (split_rule r)) /\
        split_rule r =
          (if (r <? 0.7)%float then "train"
           else if (r <? 0.7 + 0.2)%float then "validate" else "test") /\
        split_rule r ∈ ["train"; "validate"; "test"].
Proof.
  eapply (split_assigns_one_label stepping_generator [2] (two_customers "A" "B"));
    reflexivity.
Defined.

Lemma split_determined_by_layout_witness :
  exists out out',
    label_frame stepping_generator [1; 1] (two_customers "A" "B") = Ok out /\
    label_frame stepping_generator [1; 1] (two_customers "B" "A") = Ok out' /\
    get_column out "split" = get_column out' "split" /\
    (forall p n k, [1; 1] !! p = Some n -> k < n ->
       cell out "split" (sum_list (take p [1; 1]) + k) =
       (fun r => VString (split_rule r)) <$> draw stepping_generator 42 p k) /\
    (two_customers "A" "B" = two_customers "B" "A" ->
     forall k, split_label out k = split_label out' k).
Proof.
  eapply (split_determined_by_layout stepping_generator [1; 1]
            (two_customers "A" "B") (two_customers "B" "A")); reflexivity.
Defined.

Lemma label_table_schema_witness :
  exists ws' t,
    label_cells "main" "dbdemos_mlops" "advanced_churn_label_table"
      stepping_generator [3] sample_features fresh_workspace =
      (ws', Ok (drop sample_features label_col)) /\
    uc_tables ws' !! qualified "main" "dbdemos_mlops" "advanced_churn_label_table"
      = Some t /\
    columns (tbl_frame t) = [primary_key; timestamp_col; label_col; "split"] /\
    ("random" ∉ columns (tbl_frame t)) /\
    primary_key ∈ tbl_not_null t /\
    timestamp_col ∈ tbl_not_null t /\
    tbl_constraints t =
      [(("advanced_churn_label_table" ++ "_pk")%string, [primary_key; timestamp_col])] /\
    label_col ∉ columns (drop sample_features label_col).
Proof.
  eapply (label_table_schema "main" "dbdemos_mlops" "advanced_churn_label_table"
            stepping_generator [3] sample_features); reflexivity.
Defined.

Lemma pre_drop_tolerates_absence_witness :
  exists ws',
    pre_drop_cells "main" "dbdemos_mlops" sample_not_found fresh_workspace
      = (ws', Ok tt) /\
    ((qualified "main" "dbdemos_mlops" feature_table_name ++ "_online_table")%string
       ∉ online_tables fresh_workspace ->
     repr sample_not_found ∈ stdout ws') /\
    (uc_tables fresh_workspace !! qualified "main" "dbdemos_mlops" feature_table_name
       = None ->
     ("Feature Table " ++ qualified "main" "dbdemos_mlops" feature_table_name
        ++ " doesn't exist")%string ∈ stdout ws').
Proof.
  apply (pre_drop_tolerates_absence "main" "dbdemos_mlops" sample_not_found
           fresh_workspace).
  reflexivity.
Defined.

(** The pre-drop cells on the fresh workspace: two reports, no error. *)
Example pre_drop_on_fresh_workspace :
  pre_drop_cells "main" "dbdemos_mlops" sample_not_found fresh_workspace =
  (mk_workspace ∅ ∅
     ["NotFound('Online table does not exist')";
      "Feature Table main.dbdemos_mlops.churn_feature_table doesn't exist"],
   Ok tt).
Proof. reflexivity. Qed.

(** An exception outside [Exception] is not caught by the first cell. *)
Example keyboard_interrupt_propagates :
  snd (drop_online_table_cell "main" "dbdemos_mlops" (mk_exn KeyboardInterrupt "")
         fresh_workspace) = Raise (mk_exn KeyboardInterrupt "").
Proof. reflexivity. Qed.

(** The function body on sample arguments. *)
Example avg_price_increase_body_sample :
  avg_price_increase_body (PyFloat 70) (PyFloat 10) (PyFloat 600) = Ok (PyFloat 10) /\
  avg_price_increase_body (PyFloat 70.7) (PyFloat 2) (PyFloat 101.8) =
    Ok (PyFloat 19.800000000000004) /\
  avg_price_increase_body (PyFloat 70) (PyFloat 0) (PyFloat 600) = Ok (PyInt 0) /\
  avg_price_increase_body (PyFloat 70) (PyFloat nan) (PyFloat 600) = Ok (PyInt 0) /\
  raised (avg_price_increase_body (PyFloat 70) PyNone (PyFloat 600)) = true.
Proof. repeat split; reflexivity. Qed.

(** Narrowing to a FLOAT: rounding to 24 bits, ties to even, overflow to
    infinity, underflow through the subnormal numbers to zero. *)
Example double_to_float_sample :
  double_to_float 19.800000000000004 = 19.799999237060547%float /\
  double_to_float 0.1 = 0.10000000149011612%float /\
  double_to_float 10 = 10%float /\
  double_to_float 16777217 = 16777216%float /\
  double_to_float 1e40 = infinity /\
  double_to_float (-1e40) = neg_infinity /\
  double_to_float 1e-40 = 9.9999461011147596e-41%float /\
  double_to_float 1e-46 = 0%float /\
  double_to_float (-0) = (-0)%float /\
  double_to_float infinity = infinity /\
  PrimFloat.is_nan (double_to_float nan) = true.
Proof. repeat split; vm_compute; reflexivity. Qed.

(** The registered function on sample arguments: the value is the FLOAT
    nearest the body's double, and where the body returns the integer 0
    the value is the engine's reading of it. *)
Example avg_price_increase_sample :
  avg_price_increase int_as_number 70 10 600 = Ok (Some 10%float) /\
  avg_price_increase int_as_number 70.7 2 101.8 = Ok (Some 19.799999237060547%float) /\
  avg_price_increase int_as_number 70 0 600 = Ok (Some 0%float) /\
  avg_price_increase int_as_number 70 nan 600 = Ok (Some 0%float) /\
  avg_price_increase int_as_null 70.7 2 101.8 = Ok (Some 19.799999237060547%float) /\
  avg_price_increase int_as_null 70 0 600 = Ok None.
Proof. repeat split; vm_compute; reflexivity. Qed.

(** With two tracked columns missing the error names the one listed
    first. *)
Example first_missing_service_column :
  compute_service_features
    (drop (drop sample_telco "tech_support") "online_backup") =
    Raise (mk_exn AnalysisException "online_backup").
Proof. reflexivity. Qed.

(** The second threshold is the double sum of the two ratios. *)
Example second_threshold :
  (train_ratio + val_ratio)%float = 0.8999999999999999%float /\
  split_rule 0.8999999999999999 = "test" /\
  split_rule 0.8999999999999998 = "validate".
Proof. repeat split; reflexivity. Qed.


(** ** Instances of the further properties *)

Lemma compute_service_features_missing_column_witness :
  exists present missing rest,
    service_columns = (present ++ missing :: rest)%list /\
    Forall (fun a => is_Some (get_column (drop sample_telco "tech_support") a))
      present /\
    get_column (drop sample_telco "tech_support") missing = None /\
    compute_service_features (drop sample_telco "tech_support") =
      Raise (mk_exn AnalysisException missing).
Proof.
  apply (compute_service_features_missing_column
           (drop sample_telco "tech_support") "tech_support").
  - unfold service_columns. repeat constructor.
  - reflexivity.
Defined.

Lemma compute_service_features_rows_witness :
  exists out, compute_service_features sample_telco = Ok out /\ frame_rows 3 out.
Proof.
  apply (compute_service_features_rows sample_telco 3).
  - apply frame_rowsb_spec. reflexivity.
  - exact sample_service_columns.
Defined.

Lemma compute_service_features_idempotent_witness :
  compute_service_features sample_services = Ok sample_services.
Proof.
  apply (compute_service_features_idempotent sample_telco sample_services).
  reflexivity.
Defined.

Lemma clean_churn_features_missing_column_witness :
  exists e,
    clean_churn_features sample_parse sample_show
      (drop sample_services "total_charges") = Raise e /\
    exn_class e = KeyError.
Proof.
  apply (clean_churn_features_missing_column sample_parse sample_show
           (drop sample_services "total_charges")).
  right. reflexivity.
Defined.

Lemma clean_before_compute_fails_witness :
  clean_churn_features sample_parse sample_show sample_telco =
  Raise (mk_exn AnalysisException "num_optional_services").
Proof.
  apply (clean_before_compute_fails sample_parse sample_show sample_telco
           sample_senior sample_tenure sample_monthly sample_total sample_key);
    reflexivity.
Defined.

Lemma clean_churn_features_billing_types_witness :
  exists out,
    clean_churn_features sample_parse sample_show sample_services = Ok out /\
    forall name, name ∈ ["tenure"; "monthly_charges"; "total_charges"] ->
      ctype <$> get_column out name = Some DoubleType.
Proof.
  apply (clean_churn_features_billing_types sample_parse sample_show sample_services
           sample_senior sample_tenure sample_monthly sample_total sample_key
           sample_count sample_cleanable); reflexivity.
Defined.

Lemma clean_churn_features_text_charges_witness :
  exists out,
    clean_churn_features sample_parse sample_show sample_services = Ok out /\
    forall i s, cdata sample_total !! i = Some (VString s) ->
      cell out "total_charges" i = Some (VDouble (or_zero (sample_parse s))).
Proof.
  exact (clean_churn_features_text_charges sample_parse sample_show sample_services
           sample_senior sample_tenure sample_monthly sample_total sample_key
           sample_count sample_cleanable).
Defined.

Lemma clean_churn_features_tags_witness :
  exists out,
    clean_churn_features sample_parse sample_show sample_services = Ok out /\
    cmeta <$> get_column out primary_key =
      Some [("spark.contentAnnotation.semanticType", "native")] /\
    cmeta <$> get_column out "num_optional_services" =
      Some [("spark.contentAnnotation.semanticType", "numeric")].
Proof.
  exact (clean_churn_features_tags sample_parse sample_show sample_services
           sample_senior sample_tenure sample_monthly sample_total sample_key
           sample_count sample_cleanable).
Defined.

Lemma clean_churn_features_rows_witness :
  exists out,
    clean_churn_features sample_parse sample_show sample_services = Ok out /\
    forall name c, get_column out name = Some c -> length (cdata c) = 3.
Proof.
  apply (clean_churn_features_rows sample_parse sample_show sample_services
           sample_senior sample_tenure sample_monthly sample_total sample_key
           sample_count 3 sample_cleanable).
  apply frame_rowsb_spec. reflexivity.
Defined.

Lemma churn_features_n_preds_columns_witness :
  exists out ts,
    churn_features_n_preds sample_parse sample_show 1700000000 sample_telco = Ok out /\
    get_column out primary_key =
      Some (set_metadata [("spark.contentAnnotation.semanticType", "native")]
              sample_key) /\
    get_column out timestamp_col = Some ts /\
    Forall (fun v => v = double_to_timestamp 1700000000) (cdata ts) /\
    get_column out label_col = Some sample_churn.
Proof.
  apply (churn_features_n_preds_columns sample_parse sample_show 1700000000
           sample_telco sample_senior sample_tenure sample_monthly sample_total
           sample_key sample_churn sample_service_columns); reflexivity.
Defined.

Lemma feature_frame_columns_witness :
  exists churn_features_n_predsDF,
    churn_features_n_preds sample_parse sample_show 1700000000 sample_telco =
      Ok churn_features_n_predsDF /\
    columns (drop churn_features_n_predsDF label_col) =
      List.filter (fun m => negb (String.eqb m label_col)) (columns sample_telco)
      ++ ["num_optional_services"; timestamp_col] /\
    forall n, n <> label_col ->
      get_column (drop churn_features_n_predsDF label_col) n =
      get_column churn_features_n_predsDF n.
Proof.
  apply (feature_frame_columns sample_parse sample_show 1700000000 sample_telco
           sample_senior sample_tenure sample_monthly sample_total sample_key
           sample_service_columns); reflexivity.
Defined.

Lemma label_cell_missing_column_witness :
  exists present missing rest,
    [primary_key; timestamp_col; label_col] = (present ++ missing :: rest)%list /\
    Forall (fun a => is_Some (get_column sample_telco a)) present /\
    get_column sample_telco missing = None /\
    label_frame stepping_generator [3] sample_telco =
      Raise (mk_exn AnalysisException missing) /\
    label_cell "main" "dbdemos_mlops" "advanced_churn_label_table"
      stepping_generator [3] sample_telco fresh_workspace =
      (fresh_workspace, Raise (mk_exn AnalysisException missing)).
Proof.
  apply (label_cell_missing_column "main" "dbdemos_mlops" "advanced_churn_label_table"
           stepping_generator [3] sample_telco timestamp_col fresh_workspace).
  - repeat constructor.
  - reflexivity.
Defined.

Lemma label_frame_carries_columns_witness :
  exists out,
    label_frame stepping_generator [1; 2] sample_features = Ok out /\
    get_column out primary_key =
      Some (set_metadata [("spark.contentAnnotation.semanticType", "native")]
              sample_key) /\
    get_column out timestamp_col =
      Some (mk_column timestamp_col TimestampType []
              (replicate 3 (double_to_timestamp 1700000000))) /\
    get_column out label_col = Some sample_churn /\
    frame_rows 3 out.
Proof.
  apply (label_frame_carries_columns stepping_generator [1; 2] sample_features);
    try reflexivity.
  apply frame_rowsb_spec. reflexivity.
Defined.

Lemma label_cell_overwrites_witness :
  exists ws',
    label_cell "main" "dbdemos_mlops" "advanced_churn_label_table"
      stepping_generator [2] (two_customers "A" "B") null_key_workspace =
      (ws', Ok (drop (two_customers "A" "B") label_col)) /\
    tbl_frame <$>
      uc_tables ws' !! qualified "main" "dbdemos_mlops" "advanced_churn_label_table" =
      Some [mk_column primary_key StringType [] [VString "A"; VString "B"];
            mk_column timestamp_col TimestampType [] [VTimestamp 0; VTimestamp 0];
            mk_column label_col StringType [] [VString "No"; VString "No"];
            mk_column "split" StringType []
              (split_of <$> rand stepping_generator 42 [2])] /\
    (forall other,
       other <> qualified "main" "dbdemos_mlops" "advanced_churn_label_table" ->
       uc_tables ws' !! other = uc_tables null_key_workspace !! other) /\
    online_tables ws' = online_tables null_key_workspace /\
    stdout ws' = stdout null_key_workspace.
Proof.
  apply (label_cell_overwrites "main" "dbdemos_mlops" "advanced_churn_label_table"
           stepping_generator [2] (two_customers "A" "B")); reflexivity.
Defined.

Lemma constraints_cell_without_table_witness :
  constraints_cell "main" "dbdemos_mlops" "advanced_churn_label_table"
    fresh_workspace =
  (fresh_workspace, Raise (mk_exn AnalysisException "TABLE_OR_VIEW_NOT_FOUND")).
Proof.
  apply (constraints_cell_without_table "main" "dbdemos_mlops"
           "advanced_churn_label_table" fresh_workspace).
  reflexivity.
Defined.

Lemma constraints_cell_null_key_witness :
  constraints_cell "main" "dbdemos_mlops" "advanced_churn_label_table"
    null_key_workspace =
  (null_key_workspace,
   Raise (mk_exn AnalysisException "NOT NULL constraint violated")).
Proof.
  apply (constraints_cell_null_key "main" "dbdemos_mlops"
           "advanced_churn_label_table" null_key_workspace null_key_table
           null_key_column).
  - reflexivity.
  - reflexivity.
  - unfold null_key_column. cbn. repeat constructor.
Defined.

Lemma constraints_cell_not_repeatable_witness :
  exists ws'',
    constraints_cell "main" "dbdemos_mlops" "advanced_churn_label_table"
      (fst (constraints_cell "main" "dbdemos_mlops" "advanced_churn_label_table"
              sample_saved)) =
    (ws'', Raise (mk_exn AnalysisException "CONSTRAINT_ALREADY_EXISTS")).
Proof.
  apply (constraints_cell_not_repeatable "main" "dbdemos_mlops"
           "advanced_churn_label_table" sample_saved).
  reflexivity.
Defined.

Lemma pre_drop_leaves_no_table_witness :
  exists ws',
    pre_drop_cells "main" "dbdemos_mlops" sample_not_found null_key_workspace
      = (ws', Ok tt) /\
    uc_tables ws' =
      delete (qualified "main" "dbdemos_mlops" feature_table_name)
        (uc_tables null_key_workspace) /\
    online_tables ws' =
      online_tables null_key_workspace
      ∖ {[(qualified "main" "dbdemos_mlops" feature_table_name
             ++ "_online_table")%string]} /\
    length (stdout ws') = length (stdout null_key_workspace) + 2.
Proof.
  apply (pre_drop_leaves_no_table "main" "dbdemos_mlops" sample_not_found
           null_key_workspace).
  reflexivity.
Defined.

Lemma pre_drop_propagates_other_exceptions_witness :
  drop_online_table_cell "main" "dbdemos_mlops" sample_interrupt fresh_workspace =
    (fresh_workspace, Raise sample_interrupt) /\
  pre_drop_cells "main" "dbdemos_mlops" sample_interrupt fresh_workspace =
    (fresh_workspace, Raise sample_interrupt).
Proof.
  apply (pre_drop_propagates_other_exceptions "main" "dbdemos_mlops"
           sample_interrupt fresh_workspace).
  - reflexivity.
  - apply not_elem_of_empty.
Defined.

Lemma avg_price_increase_short_circuit_witness :
  avg_price_increase_body PyNone (PyFloat 0) PyNone = Ok (PyInt 0).
Proof.
  apply (avg_price_increase_short_circuit 0 PyNone PyNone). reflexivity.
Defined.
